(** * A shallow embedding of [bot/cogs/error_handler.py]

    The module holds one listener, [ErrorHandler.on_command_error], and the
    static helper [ErrorHandler.handle_unexpected_error].  The listener is
    effectful Python: it sends messages, writes log records, sets an
    attribute on the context object, raises, and calls itself.  It is
    embedded here as a computation in a small state-and-exception monad
    whose state is the context object together with the chronological list
    of observable effects.

    The standard-library routine [difflib.get_close_matches], which the
    fallback path calls, is embedded in module [difflib]. *)

From Stdlib Require Import String Ascii List ZArith QArith Bool Lia.
From Stdlib Require Import DecimalString.
Import ListNotations.

Local Open Scope string_scope.
Local Open Scope Z_scope.

(** ** Python strings *)

Module PyStr.

(** The line feed written [\n] in the source. *)
Definition nl : string := String (ascii_of_nat 10) EmptyString.

(** [str(n)] for an [int]. *)
Definition of_int (n : Z) : string := NilZero.string_of_int (Z.to_int n).

Fixpoint drop (n : nat) (s : string) : string :=
  match n, s with
  | O, _ => s
  | S _, EmptyString => EmptyString
  | S n', String _ s' => drop n' s'
  end.

(** [s.replace(old, new, 1)]: the leftmost occurrence of [old] is
    replaced, and [s] is returned unchanged when there is none. *)
Fixpoint replace_first (old new s : string) : string :=
  if String.prefix old s then new ++ drop (String.length old) s
  else match s with
       | EmptyString => EmptyString
       | String c s' => String c (replace_first old new s')
       end.

Fixpoint join (sep : string) (l : list string) : string :=
  match l with
  | [] => EmptyString
  | [x] => x
  | x :: rest => x ++ sep ++ join sep rest
  end.

(** [str(l)] for a list of plain identifiers such as permission names
    (no quote or backslash to escape). *)
Definition of_list (l : list string) : string :=
  "[" ++ join ", " (map (fun s => "'" ++ s ++ "'") l) ++ "]".

(** [sub in s]. *)
Definition contains (sub s : string) : Prop :=
  exists pre post, s = pre ++ sub ++ post.

End PyStr.

(** ** Data model *)

(** [logging] levels used by the module ([trace] is the project's custom
    level below [DEBUG]). *)
Inductive Level := TRACE | DEBUG | WARNING | ERROR.

(** The exception wrapped by a [CommandInvokeError]: either the API
    client's [ResponseCodeError], of which the handler reads
    [response.status] and the body [await response.json()] (kept by its
    [repr], which is all the handler prints), or any other exception, of
    which it reads the class name and [str(e)]. *)
Inductive Original :=
| ResponseCodeError (status : Z) (json : string)
| OtherException (class_name : string) (text : string).

(** The exception classes the handler tests with [isinstance]. *)
Inductive ExcClass :=
| CommandNotFound | BadArgument | UserInputError | NoPrivateMessage
| BotMissingPermissions | MissingPermissions | InChannelCheckFailure
| CheckFailure | CommandOnCooldown | DisabledCommand | CommandInvokeError
| CommandErrorBase.

(** A [CommandError] instance by the most specific class it belongs to,
    with the attributes that class defines. *)
Inductive ErrorKind :=
| KCommandNotFound
| KBadArgument
| KUserInputError
| KNoPrivateMessage
| KBotMissingPermissions (missing_perms : list string)
| KMissingPermissions (missing_perms : list string)
| KInChannelCheckFailure
| KCheckFailure
| KCommandOnCooldown
| KDisabledCommand
| KCommandInvokeError (original : Original)
| KOther (class_name : string).

Record CommandError := mkCommandError {
  kind : ErrorKind;
  handled : bool;          (* hasattr(e, "handled") *)
  text : string            (* str(e) *)
}.

Definition class_of (k : ErrorKind) : ExcClass :=
  match k with
  | KCommandNotFound => CommandNotFound
  | KBadArgument => BadArgument
  | KUserInputError => UserInputError
  | KNoPrivateMessage => NoPrivateMessage
  | KBotMissingPermissions _ => BotMissingPermissions
  | KMissingPermissions _ => MissingPermissions
  | KInChannelCheckFailure => InChannelCheckFailure
  | KCheckFailure => CheckFailure
  | KCommandOnCooldown => CommandOnCooldown
  | KDisabledCommand => DisabledCommand
  | KCommandInvokeError _ => CommandInvokeError
  | KOther _ => CommandErrorBase
  end.

(** [e.__class__.__name__] *)
Definition class_name_of (k : ErrorKind) : string :=
  match k with
  | KCommandNotFound => "CommandNotFound"
  | KBadArgument => "BadArgument"
  | KUserInputError => "UserInputError"
  | KNoPrivateMessage => "NoPrivateMessage"
  | KBotMissingPermissions _ => "BotMissingPermissions"
  | KMissingPermissions _ => "MissingPermissions"
  | KInChannelCheckFailure => "InChannelCheckFailure"
  | KCheckFailure => "CheckFailure"
  | KCommandOnCooldown => "CommandOnCooldown"
  | KDisabledCommand => "DisabledCommand"
  | KCommandInvokeError _ => "CommandInvokeError"
  | KOther n => n
  end.

Definition ExcClass_eqb (a b : ExcClass) : bool :=
  match a, b with
  | CommandNotFound, CommandNotFound | BadArgument, BadArgument
  | UserInputError, UserInputError | NoPrivateMessage, NoPrivateMessage
  | BotMissingPermissions, BotMissingPermissions
  | MissingPermissions, MissingPermissions
  | InChannelCheckFailure, InChannelCheckFailure
  | CheckFailure, CheckFailure | CommandOnCooldown, CommandOnCooldown
  | DisabledCommand, DisabledCommand
  | CommandInvokeError, CommandInvokeError
  | CommandErrorBase, CommandErrorBase => true
  | _, _ => false
  end.

(** Modelled from the spec: the declaration of [InChannelCheckFailure] in
    [bot.decorators] is not among the sources; section 9 says that this
    error "is also a CheckFailure". *)
Definition InChannelCheckFailure_base : ExcClass := CheckFailure.

(** The direct base class: [discord.ext.commands.errors] derives
    [BadArgument] from [UserInputError], the permission and
    private-message errors from [CheckFailure], and the rest from
    [CommandError]. *)
Definition base (c : ExcClass) : option ExcClass :=
  match c with
  | BadArgument => Some UserInputError
  | NoPrivateMessage | BotMissingPermissions | MissingPermissions =>
      Some CheckFailure
  | InChannelCheckFailure => Some InChannelCheckFailure_base
  | CommandErrorBase => None
  | _ => Some CommandErrorBase
  end.

Definition issubclass (c d : ExcClass) : bool :=
  ExcClass_eqb c d ||
  match base c with
  | None => false
  | Some c1 =>
      ExcClass_eqb c1 d ||
      match base c1 with
      | None => false
      | Some c2 => ExcClass_eqb c2 d
      end
  end.

Definition isinstance (e : CommandError) (c : ExcClass) : bool :=
  issubclass (class_of (kind e)) c.

(** [isinstance(e, (c1, c2, c3))] *)
Definition isinstance_any (e : CommandError) (cs : list ExcClass) : bool :=
  existsb (isinstance e) cs.

(** A command of the registry, by the attributes the handler reads. *)
Record Command := mkCommand {
  name : string;
  qualified_name : string;      (* str(command) *)
  aliases : list string;
  hidden : bool;
  parent : option string        (* command.parent.name, when there is a parent *)
}.

(** [f"{command}"] for a command that may be [None]. *)
Definition str_command (c : option Command) : string :=
  match c with
  | Some c => qualified_name c
  | None => "None"
  end.

(** The invocation context.  [invoked_from_error_handler] is the attribute
    the handler itself sets; the field says whether the object has it. *)
Record Context := mkContext {
  command : option Command;
  channel_id : Z;
  invoked_with : string;
  message_content : string;
  message_author : string;           (* str(ctx.message.author) *)
  invoked_from_error_handler : bool  (* hasattr(ctx, "invoked_from_error_handler") *)
}.

Definition mark (ctx : Context) : Context :=
  {| command := command ctx;
     channel_id := channel_id ctx;
     invoked_with := invoked_with ctx;
     message_content := message_content ctx;
     message_author := message_author ctx;
     invoked_from_error_handler := true |}.

(** What [await command.can_run(ctx)] does. *)
Inductive CheckOutcome :=
| CheckReturns (b : bool)
| CheckRaises (e : CommandError).

(** [command.can_run(ctx)] is a call of a coroutine function: it builds a
    coroutine object and runs nothing until the object is awaited. *)
Inductive Coroutine (A : Type) := coroutine (body : A).
Arguments coroutine {A} body.

(** [bool(obj)] of a coroutine object: it defines neither [__bool__] nor
    [__len__], so it is true. *)
Definition coroutine_truth {A} (c : Coroutine A) : bool := true.

(** The [Tags] cog: [display_tag(ctx, name)] reports whether a tag was sent. *)
Record TagsCog := mkTagsCog {
  display_tag : Context -> string -> bool
}.

(** The bot, by what the handler asks of it. *)
Record Bot := mkBot {
  get_cog_Tags : option TagsCog;               (* bot.get_cog("Tags") *)
  get_command : string -> option Command;
  walk_commands : list Command;
  can_run : Command -> Context -> CheckOutcome
}.

(** [bot.constants], loaded from the project's configuration. *)
Record Constants := mkConstants {
  Channels_verification : Z;
  Icons_questionmark : string
}.

Record Embed := mkEmbed {
  author_name : string;
  author_icon_url : string;
  description : string
}.

(** The [help_command] tuple that [ctx.invoke] receives unpacked. *)
Record HelpCommand := mkHelp {
  help_target : option Command;     (* bot.get_command("help") *)
  help_args : list string
}.

(** Observable effects, in the order the handler performs them.  The calls
    into the framework and the cog ([ctx.send], [ctx.invoke],
    [display_tag]) are recorded and taken to return normally. *)
Inductive Event :=
| Send (content : string)                       (* ctx.send(content) *)
| SendEmbed (embed : Embed) (delete_after : Q)  (* ctx.send(embed=, delete_after=) *)
| Invoke (h : HelpCommand)                      (* ctx.invoke(...) *)
| DisplayTag (tag_name : string)                (* tags_cog.display_tag(ctx, ...) *)
| Log (level : Level) (record : string).

(** What the handler can raise: a command error, the exception found
    inside a [CommandInvokeError] (by class name and [str]), or one of the
    two built-in errors its own statements can run into. *)
Inductive Exception :=
| RaisedCommandError (e : CommandError)
| RaisedOther (class_name : string) (text : string)
| AttributeError (message : string)
| IndexError (message : string).

(** ** [difflib]

    [get_close_matches] of Python's standard library, as the handler calls
    it: on strings, with [n = 1] and the default [cutoff = 0.6], hence
    through a [SequenceMatcher()] built with [isjunk = None] and
    [autojunk = True].

    Scores are kept as exact fractions.  Python computes
    [2.0 * matches / length] in binary64; two such quotients, or one of them
    and the literal [0.6], compare the same way as the fractions do as long
    as the strings are shorter than 2^25 characters.  A character of a
    [string] stands for one code point. *)

Module difflib.

Local Open Scope nat_scope.

Definition seq_of (s : string) : list ascii := list_ascii_of_string s.

Definition _calculate_ratio (matches length : nat) : Q :=
  if length =? 0 then 1%Q
  else Qmake (2 * Z.of_nat matches) (Pos.of_nat length).

Definition default_cutoff : Q := Qmake 6 10.

Definition count (c : ascii) (b : list ascii) : nat :=
  List.length (filter (Ascii.eqb c) b).

(** [__chain_b]: with [isjunk = None] nothing is junk; an element is
    popular when [b] has at least 200 elements and more than
    [len(b) // 100 + 1] of them are that element. *)
Definition isbjunk (b : list ascii) (c : ascii) : bool := false.

Definition bpopular (b : list ascii) (c : ascii) : bool :=
  let n := List.length b in
  (200 <=? n) && (n / 100 + 1 <? count c b).

Fixpoint indices_from (j : nat) (c : ascii) (b : list ascii) : list nat :=
  match b with
  | [] => []
  | x :: b' =>
      if Ascii.eqb x c then j :: indices_from (S j) c b'
      else indices_from (S j) c b'
  end.

(** [b2j.get(c, [])]: the indices of [c] in [b], increasing; popular
    elements have no entry. *)
Definition b2j_get (b : list ascii) (c : ascii) : list nat :=
  if isbjunk b c || bpopular b c then [] else indices_from 0 c b.

(** [j2len.get(j, 0)] on a dictionary kept as an association list. *)
Fixpoint dict_get (j : nat) (d : list (nat * nat)) : nat :=
  match d with
  | [] => 0
  | (j', k) :: d' => if j' =? j then k else dict_get j d'
  end.

Record Match := mkMatch { m_a : nat; m_b : nat; m_size : nat }.

(** The loop [for j in b2j.get(a[i], nothing)] of [find_longest_match]. *)
Fixpoint scan_row (i blo bhi : nat) (j2len : list (nat * nat))
         (js : list nat) (newj2len : list (nat * nat)) (best : Match)
  : list (nat * nat) * Match :=
  match js with
  | [] => (newj2len, best)
  | j :: js' =>
      if j <? blo then scan_row i blo bhi j2len js' newj2len best
      else if bhi <=? j then (newj2len, best)
      else
        (* [j2len.get(j-1, 0)]; the key -1 is never stored *)
        let k := match j with O => 0 | S j1 => dict_get j1 j2len end + 1 in
        let best' :=
          if m_size best <? k then mkMatch (i + 1 - k) (j + 1 - k) k
          else best in
        scan_row i blo bhi j2len js' ((j, k) :: newj2len) best'
  end.

(** The loop [for i in range(alo, ahi)]. *)
Fixpoint scan_rows (a b : list ascii) (blo bhi : nat) (rows : list nat)
         (j2len : list (nat * nat)) (best : Match) : Match :=
  match rows with
  | [] => best
  | i :: rows' =>
      let '(newj2len, best') :=
        scan_row i blo bhi j2len
                 (b2j_get b (nth i a Ascii.zero)) [] best in
      scan_rows a b blo bhi rows' newj2len best'
  end.

(** [while besti > alo and bestj > blo and p(b[bestj-1]) and
    a[besti-1] == b[bestj-1]]; it runs at most [besti] times. *)
Fixpoint extend_left (p : ascii -> bool) (a b : list ascii)
         (alo blo : nat) (fuel : nat) (m : Match) : Match :=
  match fuel with
  | O => m
  | S fuel' =>
      if (alo <? m_a m) && (blo <? m_b m)
         && p (nth (m_b m - 1) b Ascii.zero)
         && Ascii.eqb (nth (m_a m - 1) a Ascii.zero)
                      (nth (m_b m - 1) b Ascii.zero)
      then extend_left p a b alo blo fuel'
                       (mkMatch (m_a m - 1) (m_b m - 1) (m_size m + 1))
      else m
  end.

(** [while besti+bestsize < ahi and bestj+bestsize < bhi and
    p(b[bestj+bestsize]) and a[besti+bestsize] == b[bestj+bestsize]];
    it runs at most [ahi] times. *)
Fixpoint extend_right (p : ascii -> bool) (a b : list ascii)
         (ahi bhi : nat) (fuel : nat) (m : Match) : Match :=
  match fuel with
  | O => m
  | S fuel' =>
      if (m_a m + m_size m <? ahi) && (m_b m + m_size m <? bhi)
         && p (nth (m_b m + m_size m) b Ascii.zero)
         && Ascii.eqb (nth (m_a m + m_size m) a Ascii.zero)
                      (nth (m_b m + m_size m) b Ascii.zero)
      then extend_right p a b ahi bhi fuel'
                        (mkMatch (m_a m) (m_b m) (m_size m + 1))
      else m
  end.

Definition find_longest_match (a b : list ascii) (alo ahi blo bhi : nat)
  : Match :=
  let m0 := scan_rows a b blo bhi (seq alo (ahi - alo)) []
                      (mkMatch alo blo 0) in
  let notjunk := fun c => negb (isbjunk b c) in
  let m1 := extend_left notjunk a b alo blo (m_a m0) m0 in
  let m2 := extend_right notjunk a b ahi bhi ahi m1 in
  let m3 := extend_left (isbjunk b) a b alo blo (m_a m2) m2 in
  extend_right (isbjunk b) a b ahi bhi ahi m3.

(** The [while queue] loop of [get_matching_blocks]; the head of the list
    is the item [queue.pop()] takes.  Blocks are collected in the order
    they are found. *)
Fixpoint matching_loop (a b : list ascii) (fuel : nat)
         (queue : list (nat * nat * nat * nat)) (blocks : list Match)
  : list Match :=
  match fuel, queue with
  | O, _ => blocks
  | _, [] => blocks
  | S fuel', (alo, ahi, blo, bhi) :: queue' =>
      let x := find_longest_match a b alo ahi blo bhi in
      let '(i, j, k) := (m_a x, m_b x, m_size x) in
      if k =? 0 then matching_loop a b fuel' queue' blocks
      else
        let q1 := if (alo <? i) && (blo <? j)
                  then (alo, i, blo, j) :: queue' else queue' in
        let q2 := if (i + k <? ahi) && (j + k <? bhi)
                  then (i + k, ahi, j + k, bhi) :: q1 else q1 in
        matching_loop a b fuel' q2 (blocks ++ [x])
  end.

(** Every turn of the loop either drops a queue item or replaces it by
    items covering strictly less of [a], so [2 * len(a) + 1] turns empty
    the queue. *)
Definition matching_blocks (a b : list ascii) : list Match :=
  matching_loop a b (2 * List.length a + 1)
                [(0, List.length a, 0, List.length b)] [].

(** [ratio]: the sum of the block sizes; sorting the blocks and merging
    adjacent ones, which [get_matching_blocks] does next, keeps that sum. *)
Definition ratio (a b : list ascii) : Q :=
  let matches := fold_left (fun acc t => acc + m_size t)
                           (matching_blocks a b) 0 in
  _calculate_ratio matches (List.length a + List.length b).

(** The loop [for elt in self.a] of [quick_ratio]: [avail] starts empty
    and falls back on [fullbcount]. *)
Fixpoint quick_matches (b : list ascii) (a : list ascii)
         (avail : list (ascii * Z)) (matches : nat) : nat :=
  match a with
  | [] => matches
  | elt :: a' =>
      let numb :=
        match find (fun p => Ascii.eqb (fst p) elt) avail with
        | Some (_, v) => v
        | None => Z.of_nat (count elt b)
        end in
      quick_matches b a' ((elt, (numb - 1)%Z) :: avail)
                    (if (0 <? numb)%Z then matches + 1 else matches)
  end.

Definition quick_ratio (a b : list ascii) : Q :=
  _calculate_ratio (quick_matches b a [] 0) (List.length a + List.length b).

Definition real_quick_ratio (a b : list ascii) : Q :=
  let la := List.length a in
  let lb := List.length b in
  _calculate_ratio (Nat.min la lb) (la + lb).

(** The test guarding [result.append((s.ratio(), x))], with [x] as
    sequence 1 and [word] as sequence 2. *)
Definition good_enough (cutoff : Q) (word x : string) : bool :=
  Qle_bool cutoff (real_quick_ratio (seq_of x) (seq_of word))
  && Qle_bool cutoff (quick_ratio (seq_of x) (seq_of word))
  && Qle_bool cutoff (ratio (seq_of x) (seq_of word)).

Definition score (word x : string) : Q := ratio (seq_of x) (seq_of word).

(** [p > q] on [(score, string)] tuples: the first components decide
    unless they are equal. *)
Definition tuple_gt (p q : Q * string) : bool :=
  if Qeq_bool (fst p) (fst q) then String.ltb (snd q) (snd p)
  else negb (Qle_bool (fst p) (fst q)).

(** [max(it, default=sentinel)]: an item replaces the running maximum
    only when it is strictly greater. *)
Definition py_max (l : list (Q * string)) : option (Q * string) :=
  match l with
  | [] => None
  | p :: rest =>
      Some (fold_left (fun best item =>
                         if tuple_gt item best then item else best)
                      rest p)
  end.

(** [heapq.nlargest(1, result)] *)
Definition nlargest1 (l : list (Q * string)) : list (Q * string) :=
  match py_max l with
  | None => []
  | Some p => [p]
  end.

Definition scored (cutoff : Q) (word : string) (possibilities : list string)
  : list (Q * string) :=
  map (fun x => (score word x, x))
      (filter (good_enough cutoff word) possibilities).

(** [get_close_matches(word, possibilities, 1)] *)
Definition get_close_matches (word : string) (possibilities : list string)
  : list string :=
  map snd (nlargest1 (scored default_cutoff word possibilities)).

End difflib.

(** ** The effect monad

    A computation reads and updates the context object and appends to the
    list of effects; it ends by returning a value or by raising.  [None]
    stands for a run cut short by the bound on the depth of the handler's
    calls to itself (see [on_command_error]). *)

Record State := mkState {
  ctx_obj : Context;
  events : list Event
}.

Inductive Outcome (A : Type) :=
| Returned (a : A)
| Raised (x : Exception).
Arguments Returned {A} a.
Arguments Raised {A} x.

Definition M (A : Type) : Type := State -> option (Outcome A * State).

Definition ret {A} (a : A) : M A := fun s => Some (Returned a, s).

Definition bind {A B} (m : M A) (k : A -> M B) : M B :=
  fun s =>
    match m s with
    | None => None
    | Some (Returned a, s') => k a s'
    | Some (Raised x, s') => Some (Raised x, s')
    end.

Declare Scope py_scope.
Delimit Scope py_scope with py.
Notation "x <- m ;; k" := (bind m (fun x => k))
  (at level 61, m at next level, right associativity) : py_scope.
Notation "m ;; k" := (bind m (fun _ => k))
  (at level 61, right associativity) : py_scope.
Local Open Scope py_scope.

Definition raise {A} (x : Exception) : M A := fun s => Some (Raised x, s).

Definition cut {A} : M A := fun _ => None.

Definition get_ctx : M Context := fun s => Some (Returned (ctx_obj s), s).

Definition emit (ev : Event) : M unit :=
  fun s => Some (Returned tt, mkState (ctx_obj s) (events s ++ [ev])).

(** [ctx.invoked_from_error_handler = True] *)
Definition set_invoked_from_error_handler : M unit :=
  fun s => Some (Returned tt, mkState (mark (ctx_obj s)) (events s)).

(** [try: body / except CommandError as err: handler(err)]; any other
    exception passes through. *)
Definition try_except_CommandError {A} (body : M A)
           (handler : CommandError -> M A) : M A :=
  fun s =>
    match body s with
    | Some (Raised (RaisedCommandError err), s') => handler err s'
    | r => r
    end.

(** Whether a [try] block ran into its [return] statement. *)
Inductive Flow := Continue | ReturnNone.

Definition log (lvl : Level) (record : string) : M unit := emit (Log lvl record).

Definition is_None {A} (o : option A) : bool :=
  match o with
  | None => true
  | Some _ => false
  end.

(** ** The handler *)

Section ErrorHandler.

Variable bot : Bot.
Variable constants : Constants.

(** [cmd.can_run(ctx)]: an attribute error on [None], otherwise a
    coroutine object that has not started. *)
Definition call_can_run (cmd : option Command) : M (Coroutine CheckOutcome) :=
  match cmd with
  | None => raise (AttributeError "'NoneType' object has no attribute 'can_run'")
  | Some c => ctx <- get_ctx ;; ret (coroutine (can_run bot c ctx))
  end.

(** [await coro] for the coroutine of [can_run]. *)
Definition await (coro : Coroutine CheckOutcome) : M bool :=
  match coro with
  | coroutine (CheckReturns b) => ret b
  | coroutine (CheckRaises err) => raise (RaisedCommandError err)
  end.

(** [await tags_cog.display_tag(ctx, command_name)] *)
Definition call_display_tag (cog : option TagsCog) (tag_name : string) : M bool :=
  match cog with
  | None => raise (AttributeError "'NoneType' object has no attribute 'display_tag'")
  | Some t =>
      ctx <- get_ctx ;;
      emit (DisplayTag tag_name) ;;
      ret (display_tag t ctx tag_name)
  end.

(** [e.missing_perms] *)
Definition getattr_missing_perms (e : CommandError) : M (list string) :=
  match kind e with
  | KBotMissingPermissions l | KMissingPermissions l => ret l
  | _ => raise (AttributeError "object has no attribute 'missing_perms'")
  end.

(** [e.original] *)
Definition getattr_original (e : CommandError) : M Original :=
  match kind e with
  | KCommandInvokeError o => ret o
  | _ => raise (AttributeError "object has no attribute 'original'")
  end.

(** [l[0]] *)
Definition item0 (l : list string) : M string :=
  match l with
  | [] => raise (IndexError "list index out of range")
  | x :: _ => ret x
  end.

(** The loop over [self.bot.walk_commands()] that fills [raw_commands]. *)
Fixpoint collect_raw_commands (cmds : list Command) (raw_commands : list string)
  : list string :=
  match cmds with
  | [] => raw_commands
  | cmd :: rest =>
      if negb (hidden cmd)
      then collect_raw_commands rest (raw_commands ++ name cmd :: aliases cmd)
      else collect_raw_commands rest raw_commands
  end.

(** Lines 57-69: the help command for the invoked command. *)
Definition help_command_of (ctx : Context) : HelpCommand :=
  let command := command ctx in
  let parent := match command with
                | Some c => parent c
                | None => None
                end in
  match parent, command with
  | Some p, Some c => mkHelp (get_command bot "help") [p; name c]
  | _, Some c => mkHelp (get_command bot "help") [name c]
  | _, None => mkHelp (get_command bot "help") []
  end.

Definition exception_class_name (x : Exception) : string :=
  match x with
  | RaisedCommandError e => class_name_of (kind e)
  | RaisedOther n _ => n
  | AttributeError _ => "AttributeError"
  | IndexError _ => "IndexError"
  end.

Definition exception_str (x : Exception) : string :=
  match x with
  | RaisedCommandError e => text e
  | RaisedOther _ t => t
  | AttributeError m => m
  | IndexError m => m
  end.

(** [handle_unexpected_error(ctx, e)] *)
Definition handle_unexpected_error (e : Exception) : M unit :=
  ctx <- get_ctx ;;
  emit (Send ("Sorry, an unexpected error occurred. Please let us know!"
              ++ PyStr.nl ++ PyStr.nl
              ++ "```" ++ exception_class_name e ++ ": " ++ exception_str e ++ "```")) ;;
  log ERROR ("Error executing command invoked by " ++ message_author ctx
             ++ ": " ++ message_content ctx) ;;
  raise e.

(** The body of [on_command_error(self, ctx, e)], with the method it
    reaches through [self] as a parameter.  The context object lives in
    the state. *)
Definition on_command_error_body (self_on_command_error : CommandError -> M unit)
           (e : CommandError) : M unit :=
    ctx <- get_ctx ;;
    let command := command ctx in
    let help_command := help_command_of ctx in
    if handled e then
      log TRACE ("Command " ++ str_command command
                 ++ " had its error already handled locally; ignoring.")
    else if isinstance e CommandNotFound && negb (invoked_from_error_handler ctx) then
      if negb (channel_id ctx =? Channels_verification constants) then
        let tags_cog := get_cog_Tags bot in
        let tags_get_command := get_command bot "tags get" in
        if is_None tags_cog && is_None tags_get_command then ret tt
        else
          set_invoked_from_error_handler ;;
          let command_name := invoked_with ctx in
          let log_msg := "Cancelling attempt to fall back to a tag due to failed checks." in
          flow <- try_except_CommandError
                    (coro <- call_can_run tags_get_command ;;
                     ok <- await coro ;;
                     if negb ok then log DEBUG log_msg ;; ret ReturnNone
                     else ret Continue)
                    (fun tag_error =>
                       log DEBUG log_msg ;;
                       self_on_command_error tag_error ;;
                       ret ReturnNone) ;;
          match flow with
          | ReturnNone => ret tt
          | Continue =>
            sent <- call_display_tag tags_cog command_name ;;
            if sent then ret tt
            else
              let raw_commands := collect_raw_commands (walk_commands bot) [] in
              let similar_command_data :=
                difflib.get_close_matches command_name raw_commands in
              similar_command_name <- item0 similar_command_data ;;
              let similar_command := get_command bot similar_command_name in
              let log_msg := "Cancelling attempt to suggest a command due to failed checks." in
              flow <- try_except_CommandError
                        (coro <- call_can_run similar_command ;;
                         if negb (coroutine_truth coro)
                         then log DEBUG log_msg ;; ret ReturnNone
                         else ret Continue)
                        (fun cmd_error =>
                           log DEBUG log_msg ;;
                           self_on_command_error cmd_error ;;
                           ret ReturnNone) ;;
              match flow with
              | ReturnNone => ret tt
              | Continue =>
                let misspelled_content := message_content ctx in
                let e := mkEmbed "Did you mean:" (Icons_questionmark constants)
                           (PyStr.replace_first command_name similar_command_name
                                                misspelled_content) in
                emit (SendEmbed e 7%Q)
              end
          end
      else ret tt
    else if isinstance e BadArgument then
      emit (Send ("Bad argument: " ++ text e ++ PyStr.nl)) ;;
      emit (Invoke help_command)
    else if isinstance e UserInputError then
      emit (Send "Something about your input seems off. Check the arguments:") ;;
      emit (Invoke help_command) ;;
      log DEBUG ("Command " ++ str_command command ++ " invoked by "
                 ++ message_author ctx ++ " with error "
                 ++ class_name_of (kind e) ++ ": " ++ text e)
    else if isinstance e NoPrivateMessage then
      emit (Send "Sorry, this command can't be used in a private message!")
    else if isinstance e BotMissingPermissions then
      emit (Send "Sorry, it looks like I don't have the permissions I need to do that.") ;;
      missing_perms <- getattr_missing_perms e ;;
      log WARNING ("The bot is missing permissions to execute command "
                   ++ str_command command ++ ": " ++ PyStr.of_list missing_perms)
    else if isinstance e MissingPermissions then
      missing_perms <- getattr_missing_perms e ;;
      log DEBUG (message_author ctx ++ " is missing permissions to invoke command "
                 ++ str_command command ++ ": " ++ PyStr.of_list missing_perms)
    else if isinstance e InChannelCheckFailure then
      emit (Send (text e))
    else if isinstance_any e [CheckFailure; CommandOnCooldown; DisabledCommand] then
      log DEBUG ("Command " ++ str_command command ++ " invoked by "
                 ++ message_author ctx ++ " with error "
                 ++ class_name_of (kind e) ++ ": " ++ text e)
    else if isinstance e CommandInvokeError then
      original <- getattr_original e ;;
      match original with
      | ResponseCodeError status content =>
          if status =? 404 then
            emit (Send "There does not seem to be anything matching your query.")
          else if status =? 400 then
            log DEBUG ("API responded with 400 for command " ++ str_command command
                       ++ ": " ++ content ++ ".") ;;
            emit (Send "According to the API, your request is malformed.")
          else if (500 <=? status) && (status <? 600) then
            emit (Send "Sorry, there seems to be an internal issue with the API.") ;;
            log WARNING ("API responded with " ++ PyStr.of_int status
                         ++ " for command " ++ str_command command)
          else
            emit (Send ("Got an unexpected status code from the API (`"
                        ++ PyStr.of_int status ++ "`).")) ;;
            log WARNING ("Unexpected API response for command "
                         ++ str_command command ++ ": " ++ PyStr.of_int status)
      | OtherException class_name text =>
          handle_unexpected_error (RaisedOther class_name text)
      end
    else
      handle_unexpected_error (RaisedCommandError e).

(** [on_command_error(ctx, e)], allowed to call itself [depth - 1] levels
    deep: a call that would go deeper is cut. *)
Fixpoint on_command_error (depth : nat) (e : CommandError) {struct depth} : M unit :=
  match depth with
  | O => cut
  | S depth' => on_command_error_body (on_command_error depth') e
  end.

End ErrorHandler.

(** ** Observations on a run *)

Definition is_message (ev : Event) : bool :=
  match ev with
  | Send _ | SendEmbed _ _ => true
  | _ => false
  end.

Definition is_log (ev : Event) : bool :=
  match ev with
  | Log _ _ => true
  | _ => false
  end.

(** The messages the handler sent to the channel. *)
Definition messages (evs : list Event) : list Event := filter is_message evs.

(** The log records the handler wrote. *)
Definition log_records (evs : list Event) : list Event := filter is_log evs.

Fixpoint log_levels (evs : list Event) : list Level :=
  match evs with
  | [] => []
  | Log lvl _ :: rest => lvl :: log_levels rest
  | _ :: rest => log_levels rest
  end.

(** What a run shows of the three things the dispatch table speaks of. *)
Record Combination := mkCombination {
  message_sent : bool;
  logged : list Level;
  reraised : bool
}.

Definition observe (r : Outcome unit * State) : Combination :=
  mkCombination (negb (is_None (head (messages (events (snd r))))))
                (log_levels (events (snd r)))
                (match fst r with Raised _ => true | Returned _ => false end).

Definition nothing_observable : Combination := mkCombination false [] false.

(** The dispatch table of the specification (section 4.1, entries 3 to 11,
    and section 4.2 for the responder), written from its words: which of
    message, log record and re-raise each entry produces.  It is compared
    below with what the code does.  A [CommandNotFound] that does not go
    into the fallback of entry 2 falls under entry 11, "anything else". *)
Definition dispatch_table (e : CommandError) : Combination :=
  match kind e with
  | KBadArgument => mkCombination true [] false
  | KUserInputError => mkCombination true [DEBUG] false
  | KNoPrivateMessage => mkCombination true [] false
  | KBotMissingPermissions _ => mkCombination true [WARNING] false
  | KMissingPermissions _ => mkCombination false [DEBUG] false
  | KInChannelCheckFailure => mkCombination true [] false
  | KCheckFailure | KCommandOnCooldown | KDisabledCommand =>
      mkCombination false [DEBUG] false
  | KCommandInvokeError (ResponseCodeError status _) =>
      if status =? 404 then mkCombination true [] false
      else if status =? 400 then mkCombination true [DEBUG] false
      else mkCombination true [WARNING] false
  | KCommandInvokeError (OtherException _ _) => mkCombination true [ERROR] true
  | KCommandNotFound | KOther _ => mkCombination true [ERROR] true
  end.

(** No case of the [if]/[elif] chain of [on_command_error] applies to [e]
    on a context whose marker is [marked]. *)
Definition no_case_matches (marked : bool) (e : CommandError) : bool :=
  negb (handled e)
  && negb (isinstance e CommandNotFound && negb marked)
  && negb (isinstance e BadArgument)
  && negb (isinstance e UserInputError)
  && negb (isinstance e NoPrivateMessage)
  && negb (isinstance e BotMissingPermissions)
  && negb (isinstance e MissingPermissions)
  && negb (isinstance e InChannelCheckFailure)
  && negb (isinstance_any e [CheckFailure; CommandOnCooldown; DisabledCommand])
  && negb (isinstance e CommandInvokeError).

(** The text and the log record of [handle_unexpected_error]. *)
Definition unexpected_message (x : Exception) : string :=
  "Sorry, an unexpected error occurred. Please let us know!"
  ++ PyStr.nl ++ PyStr.nl
  ++ "```" ++ exception_class_name x ++ ": " ++ exception_str x ++ "```".

Definition unexpected_record (ctx : Context) : string :=
  "Error executing command invoked by " ++ message_author ctx
  ++ ": " ++ message_content ctx.

(** The run gets as far as the fuzzy match: an unhandled [CommandNotFound],
    on an unmarked context outside the verification channel, with the cog
    and the command both there, the check of [tags get] passing and no tag
    displayed. *)
Definition reaches_fuzzy_match (bot : Bot) (constants : Constants)
           (ctx : Context) (e : CommandError) : bool :=
  negb (handled e)
  && isinstance e CommandNotFound
  && negb (invoked_from_error_handler ctx)
  && negb (channel_id ctx =? Channels_verification constants)
  && match get_cog_Tags bot, get_command bot "tags get" with
     | Some cog, Some tg =>
         match can_run bot tg (mark ctx) with
         | CheckReturns true => negb (display_tag cog (mark ctx) (invoked_with ctx))
         | _ => false
         end
     | _, _ => false
     end.

(** The embed of line 120-122. *)
Definition suggestion (constants : Constants) (ctx : Context)
           (similar_command_name : string) : Embed :=
  mkEmbed "Did you mean:" (Icons_questionmark constants)
          (PyStr.replace_first (invoked_with ctx) similar_command_name
                               (message_content ctx)).

(** Measures for the loops of [difflib]: a block lies within the rows it
    was searched in, the lengths stored in a [j2len] dictionary are
    bounded, and a queue of [get_matching_blocks] has a weight that each
    turn of the loop lowers. *)
Definition within (alo ahi : nat) (m : difflib.Match) : Prop :=
  (alo <= difflib.m_a m /\ difflib.m_a m + difflib.m_size m <= ahi)%nat.

Definition bounded (n : nat) (d : list (nat * nat)) : Prop :=
  forall j k, In (j, k) d -> (k <= n)%nat.

Definition queue_weight (queue : list (nat * nat * nat * nat)) : nat :=
  fold_right (fun item w =>
                let '(alo, ahi, _, _) := item in (2 * (ahi - alo) + 1 + w)%nat)
             0%nat queue.

Definition queue_ordered (queue : list (nat * nat * nat * nat)) : Prop :=
  Forall (fun item => let '(alo, ahi, _, _) := item in (alo <= ahi)%nat) queue.

(** The two built-in errors that the statements of the fallback run into. *)
Definition is_builtin (x : Exception) : bool :=
  match x with
  | AttributeError _ | IndexError _ => true
  | _ => false
  end.

(** The run goes into the fallback and past its guard: an unhandled
    [CommandNotFound], on an unmarked context outside the verification
    channel, with the cog or the command there. *)
Definition entered_fallback (bot : Bot) (constants : Constants)
           (ctx : Context) (e : CommandError) : bool :=
  negb (handled e)
  && isinstance e CommandNotFound
  && negb (invoked_from_error_handler ctx)
  && negb (channel_id ctx =? Channels_verification constants)
  && negb (is_None (get_cog_Tags bot) && is_None (get_command bot "tags get")).

(** What every finished run of the handler has in common, whatever it was
    given: it only adds effects, touches nothing on the context but the
    marker, which it sets when it enters the fallback and never clears,
    sends at most one message, suggests only candidates that pass the
    cutoff, and raises a command error or a wrapped error only at the end
    of the responder. *)
Definition well_behaved (bot : Bot) (constants : Constants) (e : CommandError)
           (st : State) (r : Outcome unit * State) : Prop :=
  let ctx := ctx_obj st in
  exists new,
    events (snd r) = (events st ++ new)%list
    /\ (ctx_obj (snd r) = ctx
        \/ (invoked_from_error_handler ctx = false /\ ctx_obj (snd r) = mark ctx))
    /\ (List.length (messages new) <= 1)%nat
    /\ (forall emb d,
           In (SendEmbed emb d) new ->
           d = 7%Q
           /\ exists x,
                emb = suggestion constants ctx x
                /\ In x (collect_raw_commands (walk_commands bot) [])
                /\ difflib.good_enough difflib.default_cutoff (invoked_with ctx) x = true)
    /\ (forall x,
           fst r = Raised x -> is_builtin x = false ->
           exists pre,
             new = (pre ++ [Send (unexpected_message x);
                            Log ERROR (unexpected_record ctx)])%list)
    /\ (entered_fallback bot constants ctx e = true -> ctx_obj (snd r) = mark ctx).

(** ** Sample inputs *)

Module Sample.

Definition help_cmd : Command := mkCommand "help" "help" ["h"] false None.
Definition tags_cmd : Command := mkCommand "tags" "tags" ["t"] false None.
Definition tags_get_cmd : Command :=
  mkCommand "get" "tags get" ["show"] false (Some "tags").
Definition eval_cmd : Command := mkCommand "eval" "eval" ["e"] true None.

Definition lookup (n : string) : option Command :=
  if String.eqb n "help" then Some help_cmd
  else if String.eqb n "tags" then Some tags_cmd
  else if String.eqb n "tags get" then Some tags_get_cmd
  else if String.eqb n "eval" then Some eval_cmd
  else None.

(** A cog that finds no tag. *)
Definition tags_cog : TagsCog := mkTagsCog (fun _ _ => false).

(** Every check passes. *)
Definition bot : Bot :=
  mkBot (Some tags_cog) lookup [help_cmd; tags_cmd; tags_get_cmd; eval_cmd]
        (fun _ _ => CheckReturns true).

Definition constants : Constants := mkConstants 352442727016693763 "icon.png".

Definition ctx (typed : string) : Context :=
  mkContext None 267624335836053506 typed ("!" ++ typed ++ " please")
            "lemon#0001" false.

Definition verification_ctx : Context :=
  mkContext None 352442727016693763 "hlep" "!hlep" "lemon#0001" false.

Definition not_found : CommandError :=
  mkCommandError KCommandNotFound false "Command is not found".

Definition already_handled : CommandError :=
  mkCommandError KBadArgument true "Converting to int failed".

Definition brand_new : CommandError :=
  mkCommandError (KOther "ExtensionError") false "no such extension".

Definition api_error (status : Z) : CommandError :=
  mkCommandError (KCommandInvokeError (ResponseCodeError status "{'detail': 'x'}"))
                 false "Command raised an exception".

(** The check of [help] fails by returning [False]; the others pass. *)
Definition bot_help_forbidden : Bot :=
  mkBot (Some tags_cog) lookup [help_cmd; tags_cmd; tags_get_cmd; eval_cmd]
        (fun c _ => if String.eqb (name c) "help" then CheckReturns false
                    else CheckReturns true).

Definition missing_role : CommandError :=
  mkCommandError KCheckFailure false "You are missing the required role".

(** The check of [help] fails by raising; the others pass. *)
Definition bot_help_raises : Bot :=
  mkBot (Some tags_cog) lookup [help_cmd; tags_cmd; tags_get_cmd; eval_cmd]
        (fun c _ => if String.eqb (name c) "help" then CheckRaises missing_role
                    else CheckReturns true).

(** The check of [tags get] raises. *)
Definition bot_tags_forbidden : Bot :=
  mkBot (Some tags_cog) lookup [help_cmd; tags_cmd; tags_get_cmd; eval_cmd]
        (fun _ _ => CheckRaises missing_role).

(** The [Tags] cog is loaded but no [tags get] command is registered. *)
Definition bot_without_tags_get : Bot :=
  mkBot (Some tags_cog)
        (fun n => if String.eqb n "help" then Some help_cmd else None)
        [help_cmd] (fun _ _ => CheckReturns true).

(** The [tags get] command is registered but the cog is not loaded. *)
Definition bot_without_cog : Bot :=
  mkBot None lookup [help_cmd; tags_cmd; tags_get_cmd; eval_cmd]
        (fun _ _ => CheckReturns true).

(** Neither the cog nor the command. *)
Definition bot_without_tags : Bot :=
  mkBot None
        (fun n => if String.eqb n "help" then Some help_cmd else None)
        [help_cmd] (fun _ _ => CheckReturns true).

End Sample.

(** ** Strings *)

Lemma append_assoc (a b c : string) : (a ++ b) ++ c = a ++ b ++ c.
Proof.
  induction a as [|ch a IH]; simpl.
  - reflexivity.
  - now rewrite IH.
Qed.

Lemma contains_here (sub post : string) : PyStr.contains sub (sub ++ post).
Proof. exists EmptyString, post. reflexivity. Qed.

Lemma contains_after (pre sub s : string) :
  PyStr.contains sub s -> PyStr.contains sub (pre ++ s).
Proof.
  intros [p [q ->]]. exists (pre ++ p), q. now rewrite append_assoc.
Qed.

Lemma contains_end (sub : string) : PyStr.contains sub sub.
Proof.
  exists EmptyString, EmptyString. simpl.
  induction sub as [|ch sub IH]; simpl; [reflexivity | now rewrite <- IH].
Qed.

Lemma contains_String (ch : ascii) (sub s : string) :
  PyStr.contains sub s -> PyStr.contains sub (String ch s).
Proof.
  intros [p [q ->]]. exists (String ch p), q. reflexivity.
Qed.

Ltac solve_contains :=
  solve [ apply contains_here
        | apply contains_end
        | apply contains_String; solve_contains
        | apply contains_after; solve_contains ].

(** ** The loops of [difflib] run to their end *)

Lemma dict_get_bounded (n j : nat) (d : list (nat * nat)) :
  bounded n d -> (difflib.dict_get j d <= n)%nat.
Proof.
  induction d as [|[j' k] d IH]; intros Hb; simpl; [lia|].
  destruct (Nat.eqb j' j).
  - apply (Hb j' k). now left.
  - apply IH. intros j0 k0 Hin. apply (Hb j0 k0). now right.
Qed.

Lemma scan_row_within (i alo ahi blo bhi : nat) (j2len : list (nat * nat))
      (js : list nat) :
  (alo <= i)%nat -> (i < ahi)%nat -> bounded (i - alo) j2len ->
  forall newj2len best,
    bounded (i + 1 - alo) newj2len -> within alo ahi best ->
    bounded (i + 1 - alo)
            (fst (difflib.scan_row i blo bhi j2len js newj2len best))
    /\ within alo ahi (snd (difflib.scan_row i blo bhi j2len js newj2len best)).
Proof.
  intros Hlo Hhi Hold.
  induction js as [|j js IH]; intros newj2len best Hnew Hbest; simpl.
  - now split.
  - destruct (Nat.ltb j blo); [now apply IH|].
    destruct (Nat.leb bhi j); [now split|].
    assert (Hk : (match j with
                  | O => 0
                  | S j1 => difflib.dict_get j1 j2len
                  end <= i - alo)%nat).
    { destruct j as [|j1]; [lia | now apply dict_get_bounded]. }
    apply IH.
    + intros j0 k0 [Heq | Hin].
      * inversion Heq; subst. lia.
      * now apply (Hnew j0 k0).
    + destruct (Nat.ltb (difflib.m_size best) _); [|exact Hbest].
      unfold within; simpl. lia.
Qed.

Lemma scan_rows_within (a b : list ascii) (alo ahi blo bhi : nat) (n : nat) :
  forall start j2len best,
    (alo <= start)%nat -> (start + n <= ahi)%nat ->
    bounded (start - alo) j2len -> within alo ahi best ->
    within alo ahi (difflib.scan_rows a b blo bhi (seq start n) j2len best).
Proof.
  induction n as [|n IH]; intros start j2len best Hlo Hhi Hold Hbest; simpl.
  - exact Hbest.
  - destruct (scan_row_within start alo ahi blo bhi j2len
                (difflib.b2j_get b (nth start a Ascii.zero))
                Hlo ltac:(lia) Hold [] best) as [Hnew Hbest'].
    + intros j k [].
    + exact Hbest.
    + destruct (difflib.scan_row _ _ _ _ _ _ _) as [newj2len best'].
      simpl in Hnew, Hbest'.
      apply IH; try lia; try assumption.
      replace (S start - alo)%nat with (start + 1 - alo)%nat by lia.
      exact Hnew.
Qed.

Lemma extend_left_within (p : ascii -> bool) (a b : list ascii)
      (alo ahi blo : nat) (fuel : nat) :
  forall m, within alo ahi m ->
            within alo ahi (difflib.extend_left p a b alo blo fuel m).
Proof.
  induction fuel as [|fuel IH]; intros m Hm; simpl; [exact Hm|].
  destruct (_ && _) eqn:Hc; [|exact Hm].
  apply IH. repeat (apply andb_prop in Hc; destruct Hc as [Hc ?]).
  apply Nat.ltb_lt in Hc. unfold within in *; simpl. lia.
Qed.

Lemma extend_right_within (p : ascii -> bool) (a b : list ascii)
      (alo ahi bhi : nat) (fuel : nat) :
  forall m, within alo ahi m ->
            within alo ahi (difflib.extend_right p a b ahi bhi fuel m).
Proof.
  induction fuel as [|fuel IH]; intros m Hm; simpl; [exact Hm|].
  destruct (_ && _) eqn:Hc; [|exact Hm].
  apply IH. repeat (apply andb_prop in Hc; destruct Hc as [Hc ?]).
  apply Nat.ltb_lt in Hc. unfold within in *; simpl. lia.
Qed.

(** The two [while] loops stop on their own within the turns they get. *)
Lemma extend_left_stable (p : ascii -> bool) (a b : list ascii)
      (alo blo : nat) (fuel : nat) :
  forall m extra,
    (difflib.m_a m <= fuel)%nat ->
    difflib.extend_left p a b alo blo (fuel + extra) m
    = difflib.extend_left p a b alo blo fuel m.
Proof.
  induction fuel as [|fuel IH]; intros m extra Hm.
  - destruct extra as [|extra]; [reflexivity|]. simpl.
    replace (alo <? difflib.m_a m)%nat with false; [reflexivity|].
    symmetry. apply Nat.ltb_ge. lia.
  - simpl. destruct (_ && _) eqn:Hc; [|reflexivity].
    apply IH. simpl. lia.
Qed.

Lemma extend_right_stable (p : ascii -> bool) (a b : list ascii)
      (ahi bhi : nat) (fuel : nat) :
  forall m extra,
    (ahi <= difflib.m_a m + difflib.m_size m + fuel)%nat ->
    difflib.extend_right p a b ahi bhi (fuel + extra) m
    = difflib.extend_right p a b ahi bhi fuel m.
Proof.
  induction fuel as [|fuel IH]; intros m extra Hm.
  - destruct extra as [|extra]; [reflexivity|]. simpl.
    replace (difflib.m_a m + difflib.m_size m <? ahi)%nat with false;
      [reflexivity|].
    symmetry. apply Nat.ltb_ge. lia.
  - simpl. destruct (_ && _) eqn:Hc; [|reflexivity].
    apply IH. simpl. lia.
Qed.

(** The block [find_longest_match] returns lies in the rows it was given. *)
Lemma find_longest_match_within (a b : list ascii) (alo ahi blo bhi : nat) :
  (alo <= ahi)%nat ->
  within alo ahi (difflib.find_longest_match a b alo ahi blo bhi).
Proof.
  intros Hle. unfold difflib.find_longest_match.
  apply extend_right_within, extend_left_within,
        extend_right_within, extend_left_within.
  apply scan_rows_within; try lia.
  - intros j k [].
  - unfold within; simpl. lia.
Qed.

(** More turns than the weight of the queue change nothing: the loop of
    [get_matching_blocks] has emptied its queue by then. *)
Lemma matching_loop_stable (a b : list ascii) (fuel : nat) :
  forall queue blocks extra,
    queue_ordered queue -> (queue_weight queue <= fuel)%nat ->
    difflib.matching_loop a b (fuel + extra) queue blocks
    = difflib.matching_loop a b fuel queue blocks.
Proof.
  induction fuel as [|fuel IH]; intros queue blocks extra Hord Hw.
  - destruct queue as [|[[[alo ahi] blo] bhi] queue].
    + destruct extra; reflexivity.
    + simpl in Hw. lia.
  - destruct queue as [|[[[alo ahi] blo] bhi] queue]; [reflexivity|].
    inversion Hord as [|item rest Hitem Hrest]; subst.
    pose proof (find_longest_match_within a b alo ahi blo bhi Hitem) as [Hlo Hhi].
    simpl in Hw. cbn [difflib.matching_loop Nat.add].
    set (x := difflib.find_longest_match a b alo ahi blo bhi) in *.
    destruct (Nat.eqb_spec (difflib.m_size x) 0) as [Hz | Hnz].
    + apply IH; [exact Hrest | lia].
    + assert (Hleft : (alo <? difflib.m_a x)%nat = true ->
                      (alo <= difflib.m_a x)%nat)
        by (intros Hc; apply Nat.ltb_lt in Hc; lia).
      assert (Hright : (difflib.m_a x + difflib.m_size x <? ahi)%nat = true ->
                       (difflib.m_a x + difflib.m_size x <= ahi)%nat)
        by (intros Hc; apply Nat.ltb_lt in Hc; lia).
      destruct ((alo <? difflib.m_a x)%nat && (blo <? difflib.m_b x)%nat) eqn:Hl;
        destruct ((difflib.m_a x + difflib.m_size x <? ahi)%nat
                  && (difflib.m_b x + difflib.m_size x <? bhi)%nat) eqn:Hr;
        try (apply andb_prop in Hl; destruct Hl as [Hl _]; apply Hleft in Hl);
        try (apply andb_prop in Hr; destruct Hr as [Hr _]; apply Hright in Hr);
        (apply IH; [repeat (constructor; try assumption); exact Hrest | simpl; lia]).
Qed.

(** [matching_blocks] gives the loop as many turns as it can take. *)
Lemma matching_blocks_complete (a b : list ascii) (extra : nat) :
  difflib.matching_loop a b (2 * List.length a + 1 + extra)
                        [(0, List.length a, 0, List.length b)]%nat []
  = difflib.matching_blocks a b.
Proof.
  unfold difflib.matching_blocks. apply matching_loop_stable.
  - constructor; [lia | constructor].
  - simpl. lia.
Qed.

(** ** The terminal branches *)

Ltac step_body :=
  unfold on_command_error_body, handle_unexpected_error, getattr_original,
    getattr_missing_perms, log, emit, bind, get_ctx, ret, raise; simpl.

(** With the marker [handled] the handler only writes a trace record. *)
Lemma handled_run bot constants self e st :
  handled e = true ->
  on_command_error_body bot constants self e st
  = Some (Returned tt,
          mkState (ctx_obj st)
                  (events st ++
                   [Log TRACE ("Command " ++ str_command (command (ctx_obj st))
                      ++ " had its error already handled locally; ignoring.")])).
Proof.
  intros H. step_body. rewrite H. reflexivity.
Qed.

(** The responder: one message, one error record, then the exception. *)
Lemma handle_unexpected_error_run (x : Exception) (st : State) :
  handle_unexpected_error x st
  = Some (Raised x,
          mkState (ctx_obj st)
                  (events st ++ [Send (unexpected_message x)]
                   ++ [Log ERROR (unexpected_record (ctx_obj st))])).
Proof.
  unfold handle_unexpected_error, log, emit, bind, get_ctx, raise. simpl.
  now rewrite <- app_assoc.
Qed.

(** When no case of the chain applies, the body is the responder. *)
Lemma no_case_run bot constants self e st :
  no_case_matches (invoked_from_error_handler (ctx_obj st)) e = true ->
  on_command_error_body bot constants self e st
  = handle_unexpected_error (RaisedCommandError e) st.
Proof.
  unfold no_case_matches. intros H.
  repeat (apply andb_prop in H; destruct H as [H ?]).
  repeat match goal with
         | Hn : negb _ = true |- _ => apply negb_true_iff in Hn
         end.
  unfold on_command_error_body, bind, get_ctx. cbv beta iota.
  repeat match goal with
         | Hn : _ = false |- _ => rewrite Hn
         end.
  reflexivity.
Qed.

(** C2 (as amended): for every context and every error carrying the
    [handled] marker, dispatching the error sends no message, leaves the
    context as it is and returns; the one thing it does is write a single
    log record, at trace level. *)
Theorem C2_handled_only_traces :
  forall bot constants depth ctx e,
    handled e = true ->
    exists record,
      on_command_error bot constants (S depth) e (mkState ctx [])
      = Some (Returned tt, mkState ctx [Log TRACE record])
      /\ messages [Log TRACE record] = []
      /\ log_levels [Log TRACE record] = [TRACE].
Proof.
  intros bot constants depth ctx e H.
  eexists. split; [|split].
  - simpl. rewrite (handled_run _ _ _ _ _ H). reflexivity.
  - reflexivity.
  - reflexivity.
Qed.

Lemma C2_handled_only_traces_witness :
  exists record,
    on_command_error Sample.bot Sample.constants 2 Sample.already_handled
                     (mkState (Sample.ctx "hlep") [])
    = Some (Returned tt, mkState (Sample.ctx "hlep") [Log TRACE record])
    /\ messages [Log TRACE record] = []
    /\ log_levels [Log TRACE record] = [TRACE].
Proof.
  apply (C2_handled_only_traces Sample.bot Sample.constants 1
           (Sample.ctx "hlep") Sample.already_handled).
  reflexivity.
Defined.

(** C2 (as stated) fails: an error carrying [handled] makes the handler
    write a log record, so it is not true that no log entry is emitted. *)
Lemma C2_counterexample :
  handled Sample.already_handled = true
  /\ exists st,
       on_command_error Sample.bot Sample.constants 2 Sample.already_handled
                        (mkState (Sample.ctx "hlep") [])
       = Some (Returned tt, st)
       /\ log_records (events st)
          = [Log TRACE "Command None had its error already handled locally; ignoring."].
Proof.
  split; [reflexivity|].
  eexists. split; [vm_compute; reflexivity | reflexivity].
Qed.

Lemma isinstance_CommandNotFound e :
  isinstance e CommandNotFound = true -> kind e = KCommandNotFound.
Proof.
  unfold isinstance. destruct (kind e); simpl; intros H;
    (reflexivity || discriminate H).
Qed.

(** C9: for every context and error, the responder sends a message holding
    the error's class name and text, writes an error-level record holding
    the invoking user and the raw message text, and then raises the error;
    and every error that no case of the dispatch chain matches is handed
    to it. *)
Theorem C9_unexpected_error_responder :
  forall bot constants depth ctx evs,
    (forall x, exists msg record,
        handle_unexpected_error x (mkState ctx evs)
        = Some (Raised x, mkState ctx (evs ++ [Send msg; Log ERROR record]))
        /\ PyStr.contains (exception_class_name x) msg
        /\ PyStr.contains (exception_str x) msg
        /\ PyStr.contains (message_author ctx) record
        /\ PyStr.contains (message_content ctx) record)
    /\ (forall e,
           no_case_matches (invoked_from_error_handler ctx) e = true ->
           on_command_error bot constants (S depth) e (mkState ctx evs)
           = handle_unexpected_error (RaisedCommandError e) (mkState ctx evs)).
Proof.
  intros bot constants depth ctx evs. split.
  - intros x.
    exists (unexpected_message x), (unexpected_record ctx).
    split; [apply handle_unexpected_error_run|].
    unfold unexpected_message, unexpected_record.
    repeat split; solve_contains.
  - intros e H. simpl. now apply no_case_run.
Qed.

Lemma C9_unexpected_error_responder_witness :
  on_command_error Sample.bot Sample.constants 1 Sample.brand_new
                   (mkState (Sample.ctx "hlep") [])
  = handle_unexpected_error (RaisedCommandError Sample.brand_new)
                            (mkState (Sample.ctx "hlep") []).
Proof.
  apply (proj2 (C9_unexpected_error_responder Sample.bot Sample.constants 0
                  (Sample.ctx "hlep") [])).
  reflexivity.
Defined.

(** C10: on a context that already carries the fallback marker, a
    [CommandNotFound] error matches no branch of the chain and goes to the
    responder, which sends a message, writes an error-level record and
    raises the error again. *)
Theorem C10_marked_command_not_found :
  forall bot constants depth ctx e,
    invoked_from_error_handler ctx = true ->
    isinstance e CommandNotFound = true ->
    handled e = false ->
    on_command_error bot constants (S depth) e (mkState ctx [])
    = handle_unexpected_error (RaisedCommandError e) (mkState ctx [])
    /\ on_command_error bot constants (S depth) e (mkState ctx [])
       = Some (Raised (RaisedCommandError e),
               mkState ctx [Send (unexpected_message (RaisedCommandError e));
                            Log ERROR (unexpected_record ctx)]).
Proof.
  intros bot constants depth ctx e Hm Hc Hh.
  assert (Hrun : on_command_error bot constants (S depth) e (mkState ctx [])
                 = handle_unexpected_error (RaisedCommandError e) (mkState ctx [])).
  { simpl. apply no_case_run. simpl.
    pose proof (isinstance_CommandNotFound e Hc) as Hk.
    unfold no_case_matches, isinstance_any, isinstance.
    rewrite Hh, Hm, Hk. reflexivity. }
  split; [exact Hrun|].
  rewrite Hrun. apply handle_unexpected_error_run.
Qed.

Lemma C10_marked_command_not_found_witness :
  on_command_error Sample.bot Sample.constants 1 Sample.not_found
                   (mkState (mark (Sample.ctx "hlep")) [])
  = Some (Raised (RaisedCommandError Sample.not_found),
          mkState (mark (Sample.ctx "hlep"))
                  [Send (unexpected_message (RaisedCommandError Sample.not_found));
                   Log ERROR (unexpected_record (mark (Sample.ctx "hlep")))]).
Proof.
  apply (C10_marked_command_not_found Sample.bot Sample.constants 0
           (mark (Sample.ctx "hlep")) Sample.not_found);
    reflexivity.
Defined.

(** C5: a [CommandInvokeError] that wraps an API-response error (and was
    not handled locally) is answered by HTTP status.  404: the "nothing
    matching your query" message and nothing else.  400: a debug record
    holding the response body, then the "malformed request" message.
    500 to 599: the "internal issue with the API" message and a warning.
    Any other status: a message holding the status code and a warning. *)
Theorem C5_api_status_branches :
  forall bot constants depth ctx e status content,
    handled e = false ->
    kind e = KCommandInvokeError (ResponseCodeError status content) ->
    let run := on_command_error bot constants (S depth) e (mkState ctx []) in
    (status = 404 ->
       run = Some (Returned tt,
                   mkState ctx [Send "There does not seem to be anything matching your query."]))
    /\ (status = 400 ->
          exists record,
            run = Some (Returned tt,
                        mkState ctx [Log DEBUG record;
                                     Send "According to the API, your request is malformed."])
            /\ PyStr.contains content record)
    /\ (500 <= status <= 599 ->
          exists record,
            run = Some (Returned tt,
                        mkState ctx [Send "Sorry, there seems to be an internal issue with the API.";
                                     Log WARNING record]))
    /\ (status <> 404 -> status <> 400 -> ~ 500 <= status <= 599 ->
          exists msg record,
            run = Some (Returned tt, mkState ctx [Send msg; Log WARNING record])
            /\ PyStr.contains (PyStr.of_int status) msg).
Proof.
  intros bot constants depth ctx [k h t] status content Hh Hk run.
  simpl in Hh, Hk. subst h k.
  assert (Hrun : run
    = (if status =? 404 then
         Some (Returned tt,
               mkState ctx [Send "There does not seem to be anything matching your query."])
       else if status =? 400 then
         Some (Returned tt,
               mkState ctx [Log DEBUG ("API responded with 400 for command "
                                       ++ str_command (command ctx) ++ ": " ++ content ++ ".");
                            Send "According to the API, your request is malformed."])
       else if (500 <=? status) && (status <? 600) then
         Some (Returned tt,
               mkState ctx [Send "Sorry, there seems to be an internal issue with the API.";
                            Log WARNING ("API responded with " ++ PyStr.of_int status
                                         ++ " for command " ++ str_command (command ctx))])
       else
         Some (Returned tt,
               mkState ctx [Send ("Got an unexpected status code from the API (`"
                                  ++ PyStr.of_int status ++ "`).");
                            Log WARNING ("Unexpected API response for command "
                                         ++ str_command (command ctx) ++ ": "
                                         ++ PyStr.of_int status)]))).
  { unfold run. simpl. step_body.
    destruct (status =? 404); [reflexivity|].
    destruct (status =? 400); [reflexivity|].
    destruct ((500 <=? status) && (status <? 600)); reflexivity. }
  repeat split.
  - intros ->. rewrite Hrun. reflexivity.
  - intros ->. rewrite Hrun.
    exists ("API responded with 400 for command "
            ++ str_command (command ctx) ++ ": " ++ content ++ ".").
    split; [reflexivity | solve_contains].
  - intros [Hlo Hhi]. rewrite Hrun.
    destruct (Z.eqb_spec status 404) as [->|_]; [lia|].
    destruct (Z.eqb_spec status 400) as [->|_]; [lia|].
    replace ((500 <=? status) && (status <? 600)) with true
      by (symmetry; apply andb_true_intro; split;
          [apply Z.leb_le | apply Z.ltb_lt]; lia).
    eexists. reflexivity.
  - intros H404 H400 H5xx. rewrite Hrun.
    destruct (Z.eqb_spec status 404) as [?|_]; [contradiction|].
    destruct (Z.eqb_spec status 400) as [?|_]; [contradiction|].
    destruct ((500 <=? status) && (status <? 600)) eqn:Hr.
    + apply andb_prop in Hr. destruct Hr as [Hlo Hhi].
      apply Z.leb_le in Hlo. apply Z.ltb_lt in Hhi. exfalso. apply H5xx. lia.
    + eexists. eexists. split; [reflexivity | solve_contains].
Qed.

Lemma C5_api_status_branches_witness :
  on_command_error Sample.bot Sample.constants 1 (Sample.api_error 404)
                   (mkState (Sample.ctx "hlep") [])
  = Some (Returned tt,
          mkState (Sample.ctx "hlep")
                  [Send "There does not seem to be anything matching your query."]).
Proof.
  apply (C5_api_status_branches Sample.bot Sample.constants 0 (Sample.ctx "hlep")
           (Sample.api_error 404) 404 "{'detail': 'x'}" eq_refl eq_refl).
  reflexivity.
Defined.

(** C3 (as amended): every error of the taxonomy that was not handled
    locally and does not enter the [CommandNotFound] fallback (any variant
    but [CommandNotFound], or [CommandNotFound] on a context that already
    carries the marker) produces exactly the combination of message, log
    record and re-raise that the dispatch table gives for it, and the table
    never gives the empty combination.  A [CommandNotFound] that enters
    the fallback on the verification channel produces none of the three. *)
Theorem C3_table_conformance :
  forall bot constants depth ctx e,
    handled e = false ->
    (isinstance e CommandNotFound && negb (invoked_from_error_handler ctx) = false ->
     exists r,
       on_command_error bot constants (S depth) e (mkState ctx []) = Some r
       /\ observe r = dispatch_table e
       /\ dispatch_table e <> nothing_observable)
    /\ (isinstance e CommandNotFound && negb (invoked_from_error_handler ctx) = true ->
        channel_id ctx = Channels_verification constants ->
        exists r,
          on_command_error bot constants (S depth) e (mkState ctx []) = Some r
          /\ observe r = nothing_observable).
Proof.
  intros bot constants depth ctx [k h t] Hh. simpl in Hh. subst h. split.
  - intros Hc.
    destruct k as [ | | | | perms | perms | | | | | [status content | cls msg] | cls];
      simpl; step_body;
      try (eexists; split; [reflexivity | split; [reflexivity | discriminate]]).
    + (* CommandNotFound on a marked context *)
      unfold isinstance in Hc. simpl in Hc. rewrite Hc.
      eexists; split; [reflexivity | split; [reflexivity | discriminate]].
    + (* an API error: by status *)
      unfold dispatch_table. simpl.
      destruct (status =? 404);
        [eexists; split; [reflexivity | split; [reflexivity | discriminate]]|].
      destruct (status =? 400);
        [eexists; split; [reflexivity | split; [reflexivity | discriminate]]|].
      destruct ((500 <=? status) && (status <? 600));
        eexists; (split; [reflexivity | split; [reflexivity | discriminate]]).
  - intros Hc Hv. simpl. unfold on_command_error_body, bind, get_ctx.
    cbv beta iota. cbn [handled ctx_obj]. rewrite Hc, Hv, Z.eqb_refl.
    eexists. split; reflexivity.
Qed.

Lemma C3_table_conformance_witness :
  (exists r,
      on_command_error Sample.bot Sample.constants 1 (Sample.api_error 503)
                       (mkState (Sample.ctx "hlep") []) = Some r
      /\ observe r = dispatch_table (Sample.api_error 503)
      /\ dispatch_table (Sample.api_error 503) <> nothing_observable)
  /\ (exists r,
         on_command_error Sample.bot Sample.constants 1 Sample.not_found
                          (mkState Sample.verification_ctx []) = Some r
         /\ observe r = nothing_observable).
Proof.
  split.
  - apply (proj1 (C3_table_conformance Sample.bot Sample.constants 0
                    (Sample.ctx "hlep") (Sample.api_error 503) eq_refl)).
    reflexivity.
  - apply (proj2 (C3_table_conformance Sample.bot Sample.constants 0
                    Sample.verification_ctx Sample.not_found eq_refl));
      reflexivity.
Defined.

(** C3 (as stated) fails: a [CommandNotFound] error on the verification
    channel produces none of message, log record and re-raise. *)
Lemma C3_counterexample :
  on_command_error Sample.bot Sample.constants 2 Sample.not_found
                   (mkState Sample.verification_ctx [])
  = Some (Returned tt, mkState Sample.verification_ctx [])
  /\ observe (Returned tt, mkState Sample.verification_ctx []) = nothing_observable.
Proof.
  split; reflexivity.
Qed.

(** ** Depth of the recursion *)

Ltac step_fallback :=
  unfold on_command_error_body, try_except_CommandError,
    set_invoked_from_error_handler, call_can_run, await, call_display_tag,
    item0, handle_unexpected_error, log, emit, bind, get_ctx, ret, raise;
  cbv beta iota.

(** On a marked context the body never goes through [self]. *)
Lemma body_marked_ignores_self bot constants self1 self2 e st :
  invoked_from_error_handler (ctx_obj st) = true ->
  on_command_error_body bot constants self1 e st
  = on_command_error_body bot constants self2 e st.
Proof.
  intros Hm. unfold on_command_error_body, bind, get_ctx. cbv beta iota.
  rewrite Hm, andb_false_r. reflexivity.
Qed.

(** The body reaches [self] only with the marker set on the context. *)
Lemma body_calls_self_marked bot constants self1 self2 e st :
  (forall e' st', invoked_from_error_handler (ctx_obj st') = true ->
                  self1 e' st' = self2 e' st') ->
  on_command_error_body bot constants self1 e st
  = on_command_error_body bot constants self2 e st.
Proof.
  intros Hself. step_fallback.
  destruct (handled e); [reflexivity|].
  destruct (isinstance e CommandNotFound
            && negb (invoked_from_error_handler (ctx_obj st))); [|reflexivity].
  destruct (negb (channel_id (ctx_obj st) =? Channels_verification constants));
    [|reflexivity].
  destruct (get_cog_Tags bot) as [cog|];
    destruct (get_command bot "tags get") as [tg|]; simpl; try reflexivity.
  - destruct (can_run bot tg (mark (ctx_obj st))) as [[|]|err]; simpl;
      try reflexivity.
    + destruct (display_tag cog (mark (ctx_obj st)) (invoked_with (ctx_obj st)));
        [reflexivity|].
      destruct (difflib.get_close_matches _ _) as [|x rest]; simpl; [reflexivity|].
      destruct (get_command bot x); reflexivity.
    + rewrite Hself by reflexivity.
      destruct (self2 err _) as [[[[] | x] s'] | ]; reflexivity.
  - destruct (can_run bot tg (mark (ctx_obj st))) as [[|]|err]; simpl;
      try reflexivity.
    rewrite Hself by reflexivity.
      destruct (self2 err _) as [[[[] | x] s'] | ]; reflexivity.
Qed.

(** Outside the fallback the body returns or raises whatever [self] is. *)
Lemma body_terminal_total bot constants e st :
  isinstance e CommandNotFound
  && negb (invoked_from_error_handler (ctx_obj st)) = false ->
  exists r, forall self, on_command_error_body bot constants self e st = Some r.
Proof.
  intros Hc. destruct e as [k h t]. destruct h.
  - eexists. intros self. now apply handled_run.
  - destruct k as [ | | | | perms | perms | | | | | [status content | cls msg] | cls];
      step_body; try (eexists; intros self; reflexivity).
    + unfold isinstance in Hc. simpl in Hc. rewrite Hc.
      eexists; intros self; reflexivity.
    + destruct (status =? 404); [eexists; intros self; reflexivity|].
      destruct (status =? 400); [eexists; intros self; reflexivity|].
      destruct ((500 <=? status) && (status <? 600));
        eexists; intros self; reflexivity.
Qed.

(** The body ends as soon as [self] ends on marked contexts. *)
Lemma body_total bot constants self e st :
  (forall e' st', invoked_from_error_handler (ctx_obj st') = true ->
                  exists r, self e' st' = Some r) ->
  exists r, on_command_error_body bot constants self e st = Some r.
Proof.
  intros Hself.
  destruct (isinstance e CommandNotFound
            && negb (invoked_from_error_handler (ctx_obj st))) eqn:Hc.
  - step_fallback. rewrite Hc.
    destruct (handled e); [eexists; reflexivity|].
    destruct (negb (channel_id (ctx_obj st) =? Channels_verification constants));
      [|eexists; reflexivity].
    destruct (get_cog_Tags bot) as [cog|];
      destruct (get_command bot "tags get") as [tg|]; simpl;
      try (eexists; reflexivity).
    + destruct (can_run bot tg (mark (ctx_obj st))) as [[|]|err]; simpl;
        try (eexists; reflexivity).
      * destruct (display_tag cog (mark (ctx_obj st)) (invoked_with (ctx_obj st)));
          [eexists; reflexivity|].
        destruct (difflib.get_close_matches _ _) as [|x rest]; simpl;
          [eexists; reflexivity|].
        destruct (get_command bot x); eexists; reflexivity.
      * match goal with
        | |- context [self err ?s] =>
            destruct (Hself err s eq_refl) as [[[[] | x] s'] ->]
        end; eexists; reflexivity.
    + destruct (can_run bot tg (mark (ctx_obj st))) as [[|]|err]; simpl;
        try (eexists; reflexivity).
      match goal with
      | |- context [self err ?s] =>
          destruct (Hself err s eq_refl) as [[[[] | x] s'] ->]
      end; eexists; reflexivity.
  - destruct (body_terminal_total bot constants e st Hc) as [r Hr].
    exists r. apply Hr.
Qed.

(** C8: the recursion of the handler is bounded.  On a context that
    carries the fallback marker the handler ends without calling itself;
    and since it calls itself only after setting the marker, on any
    context and error it ends with calls nested at most one level deep,
    whatever the permission checks do. *)
Theorem C8_recursion_bounded :
  forall bot constants ctx evs e,
    (invoked_from_error_handler ctx = true ->
     exists r, forall depth,
         on_command_error bot constants (1 + depth) e (mkState ctx evs) = Some r)
    /\ (exists r, forall depth,
           on_command_error bot constants (2 + depth) e (mkState ctx evs) = Some r).
Proof.
  intros bot constants ctx evs e.
  assert (Hmarked : forall e' st',
             invoked_from_error_handler (ctx_obj st') = true ->
             exists r, forall depth,
                 on_command_error bot constants (1 + depth) e' st' = Some r).
  { intros e' st' Hm.
    destruct (body_terminal_total bot constants e' st') as [r Hr].
    - rewrite Hm. apply andb_false_r.
    - exists r. intros depth. simpl. apply Hr. }
  split.
  - intros Hm. apply Hmarked. exact Hm.
  - destruct (body_total bot constants (on_command_error bot constants 1) e
                         (mkState ctx evs)) as [r Hr].
    + intros e' st' Hm. destruct (Hmarked e' st' Hm) as [r Hr].
      exists r. apply (Hr 0%nat).
    + exists r. intros depth. rewrite <- Hr.
      change (on_command_error bot constants (2 + depth) e)
        with (on_command_error_body bot constants
                (on_command_error bot constants (1 + depth)) e).
      apply body_calls_self_marked.
      intros e' st' Hm. destruct (Hmarked e' st' Hm) as [r' Hr'].
      exact (eq_trans (Hr' depth) (eq_sym (Hr' 0%nat))).
Qed.

Lemma C8_recursion_bounded_witness :
  exists r, forall depth,
      on_command_error Sample.bot_tags_forbidden Sample.constants (1 + depth)
                       Sample.not_found
                       (mkState (mark (Sample.ctx "hlep")) []) = Some r.
Proof.
  apply (proj1 (C8_recursion_bounded Sample.bot_tags_forbidden Sample.constants
                  (mark (Sample.ctx "hlep")) [] Sample.not_found)).
  reflexivity.
Defined.

(** The one extra level is used: when the check of [tags get] raises, the
    handler calls itself once, so a run cut at depth 1 does not end, and a
    run at depth 2 does. *)
Lemma one_level_is_needed :
  on_command_error Sample.bot_tags_forbidden Sample.constants 1
                   Sample.not_found (mkState (Sample.ctx "hlep") []) = None
  /\ on_command_error Sample.bot_tags_forbidden Sample.constants 2
                      Sample.not_found (mkState (Sample.ctx "hlep") [])
     = Some (Returned tt,
             mkState (mark (Sample.ctx "hlep"))
                     [Log DEBUG "Cancelling attempt to fall back to a tag due to failed checks.";
                      Log DEBUG "Command None invoked by lemon#0001 with error CheckFailure: You are missing the required role"]).
Proof.
  split; reflexivity.
Qed.

(** ** The fallback *)

(** Once the run has reached the fuzzy match, the list of close matches
    decides everything: no match is an [IndexError], a match the registry
    does not resolve is an [AttributeError], and any other match is
    suggested.  What the check of the matched command would answer plays
    no part. *)
Lemma fuzzy_stage_run bot constants self ctx evs e :
  reaches_fuzzy_match bot constants ctx e = true ->
  on_command_error_body bot constants self e (mkState ctx evs)
  = match difflib.get_close_matches
            (invoked_with ctx) (collect_raw_commands (walk_commands bot) []) with
    | [] =>
        Some (Raised (IndexError "list index out of range"),
              mkState (mark ctx) (evs ++ [DisplayTag (invoked_with ctx)]))
    | x :: _ =>
        match get_command bot x with
        | None =>
            Some (Raised (AttributeError "'NoneType' object has no attribute 'can_run'"),
                  mkState (mark ctx) (evs ++ [DisplayTag (invoked_with ctx)]))
        | Some _ =>
            Some (Returned tt,
                  mkState (mark ctx)
                          ((evs ++ [DisplayTag (invoked_with ctx)])
                           ++ [SendEmbed (suggestion constants ctx x) 7%Q]))
        end
    end.
Proof.
  unfold reaches_fuzzy_match. intros H.
  repeat (apply andb_prop in H; destruct H as [H ?]).
  repeat match goal with
         | Hn : negb _ = true |- _ => apply negb_true_iff in Hn
         end.
  step_fallback. simpl.
  match goal with
  | Hh : handled e = false, Hi : isinstance e CommandNotFound = true,
    Hm : invoked_from_error_handler ctx = false,
    Hv : (channel_id ctx =? _) = false |- _ => rewrite Hh, Hi, Hm, Hv
  end.
  simpl.
  destruct (get_cog_Tags bot) as [cog|]; [|discriminate].
  destruct (get_command bot "tags get") as [tg|]; [|discriminate].
  simpl.
  destruct (can_run bot tg (mark ctx)) as [[|]|err]; try discriminate.
  simpl.
  match goal with
  | Hd : negb (display_tag _ _ _) = true |- _ =>
      apply negb_true_iff in Hd; rewrite Hd
  end.
  destruct (difflib.get_close_matches _ _) as [|x rest]; simpl; [reflexivity|].
  destruct (get_command bot x); reflexivity.
Qed.

(** C7: nothing guards the fuzzy match against an empty result; whenever
    the run reaches it and [get_close_matches] returns no match, taking
    the first match raises an [IndexError]. *)
Theorem C7_empty_matches_raise_IndexError :
  forall bot constants depth ctx e,
    reaches_fuzzy_match bot constants ctx e = true ->
    difflib.get_close_matches
      (invoked_with ctx) (collect_raw_commands (walk_commands bot) []) = [] ->
    on_command_error bot constants (S depth) e (mkState ctx [])
    = Some (Raised (IndexError "list index out of range"),
            mkState (mark ctx) [DisplayTag (invoked_with ctx)]).
Proof.
  intros bot constants depth ctx e Hreach Hempty. simpl.
  rewrite (fuzzy_stage_run _ _ _ _ _ _ Hreach), Hempty. reflexivity.
Qed.

Lemma C7_empty_matches_raise_IndexError_witness :
  on_command_error Sample.bot Sample.constants 2 Sample.not_found
                   (mkState (Sample.ctx "xyzzy") [])
  = Some (Raised (IndexError "list index out of range"),
          mkState (mark (Sample.ctx "xyzzy")) [DisplayTag "xyzzy"]).
Proof.
  apply (C7_empty_matches_raise_IndexError Sample.bot Sample.constants 1
           (Sample.ctx "xyzzy") Sample.not_found).
  - reflexivity.
  - vm_compute. reflexivity.
Defined.

(** C1, on the code: the check of the matched command is called but not
    awaited, so its answer is never looked at.  With [help] as the closest
    match and a check of [help] that returns [False], or one that raises,
    the suggestion is sent all the same, nothing is logged and the handler
    does not call itself. *)
Theorem C1_suggestion_without_check :
  can_run Sample.bot_help_forbidden Sample.help_cmd (mark (Sample.ctx "hlep"))
  = CheckReturns false
  /\ on_command_error Sample.bot_help_forbidden Sample.constants 2
                      Sample.not_found (mkState (Sample.ctx "hlep") [])
     = Some (Returned tt,
             mkState (mark (Sample.ctx "hlep"))
                     [DisplayTag "hlep";
                      SendEmbed (mkEmbed "Did you mean:" "icon.png" "!help please") 7%Q])
  /\ can_run Sample.bot_help_raises Sample.help_cmd (mark (Sample.ctx "hlep"))
     = CheckRaises Sample.missing_role
  /\ on_command_error Sample.bot_help_raises Sample.constants 2
                      Sample.not_found (mkState (Sample.ctx "hlep") [])
     = Some (Returned tt,
             mkState (mark (Sample.ctx "hlep"))
                     [DisplayTag "hlep";
                      SendEmbed (mkEmbed "Did you mean:" "icon.png" "!help please") 7%Q]).
Proof.
  repeat split; vm_compute; reflexivity.
Qed.

(** When neither the cog nor the command is there, the handler does
    nothing at all. *)
Lemma neither_exists_noop bot constants depth ctx evs e :
  handled e = false ->
  isinstance e CommandNotFound = true ->
  invoked_from_error_handler ctx = false ->
  get_cog_Tags bot = None ->
  get_command bot "tags get" = None ->
  on_command_error bot constants (S depth) e (mkState ctx evs)
  = Some (Returned tt, mkState ctx evs).
Proof.
  intros Hh Hi Hm Hcog Hcmd. simpl. step_fallback. simpl.
  rewrite Hh, Hi, Hm, Hcog, Hcmd. simpl.
  destruct (negb (channel_id ctx =? Channels_verification constants));
    reflexivity.
Qed.

(** C4, on the code: the guard returns only when the cog and the command
    are both missing.  With the cog loaded and no [tags get] command
    registered the handler goes on, sets the marker, and fails on
    [None.can_run]; with the command registered and no cog it goes on
    until [None.display_tag]. *)
Theorem C4_proceeds_with_one_missing :
  on_command_error Sample.bot_without_tags_get Sample.constants 2
                   Sample.not_found (mkState (Sample.ctx "hlep") [])
  = Some (Raised (AttributeError "'NoneType' object has no attribute 'can_run'"),
          mkState (mark (Sample.ctx "hlep")) [])
  /\ on_command_error Sample.bot_without_cog Sample.constants 2
                      Sample.not_found (mkState (Sample.ctx "hlep") [])
     = Some (Raised (AttributeError "'NoneType' object has no attribute 'display_tag'"),
             mkState (mark (Sample.ctx "hlep")) [])
  /\ on_command_error Sample.bot_without_tags Sample.constants 2
                      Sample.not_found (mkState (Sample.ctx "hlep") [])
     = Some (Returned tt, mkState (Sample.ctx "hlep") []).
Proof.
  repeat split; vm_compute; reflexivity.
Qed.

(** ** The fuzzy match *)

Lemma collect_raw_commands_In (cmds : list Command) (acc : list string) (x : string) :
  In x (collect_raw_commands cmds acc)
  <-> In x acc
      \/ exists cmd, In cmd cmds /\ hidden cmd = false
                     /\ (x = name cmd \/ In x (aliases cmd)).
Proof.
  revert acc. induction cmds as [|cmd rest IH]; intros acc; simpl.
  - split; [now left | intros [H | [cmd [[] _]]]; exact H].
  - destruct (hidden cmd) eqn:Hhid; simpl; rewrite IH; split.
    + intros [H | [c [Hin Hc]]]; [now left | right; exists c; tauto].
    + intros [H | [c [[<- | Hin] [Hh Hc]]]];
        [now left | congruence | right; exists c; tauto].
    + intros [H | [c [Hin Hc]]].
      * apply in_app_or in H. destruct H as [H | [H | H]];
          [now left | | ]; right; exists cmd; split; auto.
      * right; exists c; tauto.
    + intros [H | [c [[<- | Hin] [Hh Hc]]]].
      * left. apply in_or_app. now left.
      * left. apply in_or_app. right. simpl. destruct Hc; auto.
      * right. exists c. tauto.
Qed.

Lemma tuple_gt_true_le (p q : Q * string) :
  difflib.tuple_gt p q = true -> (fst q <= fst p)%Q.
Proof.
  unfold difflib.tuple_gt.
  destruct (Qeq_bool (fst p) (fst q)) eqn:Heq.
  - intros _. apply Qeq_bool_iff in Heq. rewrite Heq. apply Qle_refl.
  - intros H. apply negb_true_iff in H.
    apply Qlt_le_weak, Qnot_le_lt. intros Hle.
    apply Qle_bool_iff in Hle. congruence.
Qed.

Lemma tuple_gt_false_le (p q : Q * string) :
  difflib.tuple_gt p q = false -> (fst p <= fst q)%Q.
Proof.
  unfold difflib.tuple_gt.
  destruct (Qeq_bool (fst p) (fst q)) eqn:Heq.
  - intros _. apply Qeq_bool_iff in Heq. rewrite Heq. apply Qle_refl.
  - intros H. apply negb_false_iff in H. now apply Qle_bool_iff.
Qed.

(** The running maximum is an item of the list and no item scores more. *)
Lemma max_loop_spec (rest : list (Q * string)) (p : Q * string) :
  let r := fold_left (fun best item =>
                        if difflib.tuple_gt item best then item else best)
                     rest p in
  (r = p \/ In r rest)
  /\ (fst p <= fst r)%Q
  /\ forall q, In q rest -> (fst q <= fst r)%Q.
Proof.
  revert p. induction rest as [|item rest IH]; intros p; simpl.
  - split; [now left | split; [apply Qle_refl | intros q []]].
  - destruct (difflib.tuple_gt item p) eqn:Hgt.
    + destruct (IH item) as [Hin [Hle Hall]]. split; [|split].
      * destruct Hin as [-> | Hin]; right; [now left | now right].
      * eapply Qle_trans; [apply (tuple_gt_true_le _ _ Hgt) | exact Hle].
      * intros q [<- | Hq]; [exact Hle | now apply Hall].
    + destruct (IH p) as [Hin [Hle Hall]]. split; [|split].
      * destruct Hin as [-> | Hin]; [now left | right; now right].
      * exact Hle.
      * intros q [<- | Hq]; [|now apply Hall].
        eapply Qle_trans; [apply (tuple_gt_false_le _ _ Hgt) | exact Hle].
Qed.

Lemma py_max_spec (l : list (Q * string)) :
  match difflib.py_max l with
  | None => l = []
  | Some p => In p l /\ forall q, In q l -> (fst q <= fst p)%Q
  end.
Proof.
  destruct l as [|p rest]; simpl; [reflexivity|].
  destruct (max_loop_spec rest p) as [Hin [Hle Hall]]. split.
  - destruct Hin as [-> | Hin]; [now left | now right].
  - intros q [<- | Hq]; [exact Hle | now apply Hall].
Qed.

Lemma scored_In (cutoff : Q) (word : string) (l : list string) (p : Q * string) :
  In p (difflib.scored cutoff word l)
  <-> In (snd p) l /\ difflib.good_enough cutoff word (snd p) = true
      /\ fst p = difflib.score word (snd p).
Proof.
  unfold difflib.scored. rewrite in_map_iff. split.
  - intros [x [<- Hx]]. apply filter_In in Hx. simpl. tauto.
  - intros [Hin [Hgood Hs]]. exists (snd p). split.
    + destruct p as [s x]. simpl in *. now subst.
    + apply filter_In. tauto.
Qed.

(** What [get_close_matches] returns: nothing when no possibility passes
    the cutoff tests, and otherwise one possibility that passes them and
    scores at least as much as every other that does. *)
Lemma get_close_matches_spec (word : string) (l : list string) :
  (difflib.get_close_matches word l = []
   /\ forall y, In y l -> difflib.good_enough difflib.default_cutoff word y = false)
  \/ exists x,
       difflib.get_close_matches word l = [x]
       /\ In x l
       /\ difflib.good_enough difflib.default_cutoff word x = true
       /\ forall y, In y l ->
                    difflib.good_enough difflib.default_cutoff word y = true ->
                    (difflib.score word y <= difflib.score word x)%Q.
Proof.
  unfold difflib.get_close_matches, difflib.nlargest1.
  pose proof (py_max_spec (difflib.scored difflib.default_cutoff word l)) as Hmax.
  destruct (difflib.py_max _) as [p|].
  - right. destruct Hmax as [Hin Hall].
    apply scored_In in Hin. destruct Hin as [Hin [Hgood Hs]].
    exists (snd p). repeat split; try assumption.
    intros y Hy Hgy. rewrite <- Hs.
    apply (Hall (difflib.score word y, y)).
    apply scored_In. simpl. auto.
  - left. split; [reflexivity|].
    intros y Hy. destruct (difflib.good_enough _ word y) eqn:Hg; [|reflexivity].
    assert (Hin : In (difflib.score word y, y)
                     (difflib.scored difflib.default_cutoff word l))
      by (apply scored_In; simpl; auto).
    rewrite Hmax in Hin. destruct Hin.
Qed.





(** * Further properties of the handler *)

Ltac find_substring :=
  solve [ exists EmptyString; eexists; reflexivity
        | apply contains_end
        | apply contains_String; find_substring
        | apply contains_after; find_substring ].

(** ** Help suggestions (lines 57-69 and 125-134) *)

Lemma isinstance_UserInputError e :
  isinstance e UserInputError = true ->
  kind e = KBadArgument \/ kind e = KUserInputError.
Proof.
  unfold isinstance. destruct (kind e); simpl; intros H;
    (discriminate H || (left; reflexivity) || (right; reflexivity)).
Qed.

(** X1: an input error that was not handled locally is answered with one
    message followed by one invocation of the help command, whose
    arguments name the failed command: nothing when no command was
    resolved, the command's name, or its parent's name and then its own.
    A [BadArgument] stops there; any other input error adds one debug
    record. *)
Theorem X1_input_error_invokes_help :
  forall bot constants depth ctx evs e,
    handled e = false ->
    isinstance e UserInputError = true ->
    let args := match command ctx with
                | None => []
                | Some c => match parent c with
                            | None => [name c]
                            | Some p => [p; name c]
                            end
                end in
    exists msg rest,
      on_command_error bot constants (S depth) e (mkState ctx evs)
      = Some (Returned tt,
              mkState ctx (evs ++ Send msg
                               :: Invoke (mkHelp (get_command bot "help") args)
                               :: rest))
      /\ ((isinstance e BadArgument = true /\ rest = []
           /\ msg = "Bad argument: " ++ text e ++ PyStr.nl)
          \/ (isinstance e BadArgument = false
              /\ exists record, rest = [Log DEBUG record]
                                /\ PyStr.contains (class_name_of (kind e)) record
                                /\ PyStr.contains (text e) record)).
Proof.
  intros bot constants depth ctx evs [k h t] Hh Hi args. simpl in Hh. subst h.
  assert (Hargs : help_command_of bot ctx = mkHelp (get_command bot "help") args).
  { unfold help_command_of, args.
    destruct (command ctx) as [c|]; [destruct (parent c)|]; reflexivity. }
  destruct (isinstance_UserInputError _ Hi) as [Hk | Hk]; simpl in Hk; subst k.
  - eexists. exists []. split.
    + simpl. step_body. rewrite Hargs, <- app_assoc. reflexivity.
    + left. repeat split.
  - eexists. eexists. split.
    + simpl. step_body. rewrite Hargs, <- !app_assoc. reflexivity.
    + right. split; [reflexivity|]. eexists. split; [reflexivity|].
      simpl. split; find_substring.
Qed.

Lemma X1_input_error_invokes_help_witness :
  exists msg rest,
    on_command_error Sample.bot Sample.constants 1 
                     (mkCommandError KBadArgument false "Converting to int failed")
                     (mkState (mkContext (Some Sample.tags_get_cmd) 1 "get" "!tags get 1 2"
                                         "lemon#0001" false) [])
    = Some (Returned tt,
            mkState (mkContext (Some Sample.tags_get_cmd) 1 "get" "!tags get 1 2"
                               "lemon#0001" false)
                    ([] ++ Send msg
                        :: Invoke (mkHelp (Some Sample.help_cmd) ["tags"; "get"])
                        :: rest))
    /\ ((true = true /\ rest = []
         /\ msg = "Bad argument: " ++ "Converting to int failed" ++ PyStr.nl)
        \/ (true = false
            /\ exists record, rest = [Log DEBUG record]
                              /\ PyStr.contains "BadArgument" record
                              /\ PyStr.contains "Converting to int failed" record)).
Proof.
  apply (X1_input_error_invokes_help Sample.bot Sample.constants 0
           (mkContext (Some Sample.tags_get_cmd) 1 "get" "!tags get 1 2"
                      "lemon#0001" false) []
           (mkCommandError KBadArgument false "Converting to int failed"));
    reflexivity.
Defined.

(** ** Check failures (lines 135-153) *)

(** X2: three kinds of check failure are answered in the channel although
    each is a [CheckFailure], because their branches come first: a
    [NoPrivateMessage] and a [BotMissingPermissions] with a fixed text (the
    second also with a warning that lists the missing permissions), an
    [InChannelCheckFailure] with the text of the error itself.  The handler
    returns; it invokes nothing and sets no marker. *)
Theorem X2_answered_check_failures :
  forall bot constants depth ctx evs e,
    handled e = false ->
    (isinstance e NoPrivateMessage = true ->
     on_command_error bot constants (S depth) e (mkState ctx evs)
     = Some (Returned tt,
             mkState ctx (evs ++ [Send "Sorry, this command can't be used in a private message!"])))
    /\ (isinstance e InChannelCheckFailure = true ->
        isinstance e CheckFailure = true
        /\ on_command_error bot constants (S depth) e (mkState ctx evs)
           = Some (Returned tt, mkState ctx (evs ++ [Send (text e)])))
    /\ (forall perms, kind e = KBotMissingPermissions perms ->
        exists record,
          on_command_error bot constants (S depth) e (mkState ctx evs)
          = Some (Returned tt,
                  mkState ctx
                    (evs ++ [Send "Sorry, it looks like I don't have the permissions I need to do that.";
                             Log WARNING record]))
          /\ PyStr.contains (PyStr.of_list perms) record).
Proof.
  intros bot constants depth ctx evs [k h t] Hh. simpl in Hh. subst h.
  split; [|split].
  - intros Hi. unfold isinstance in Hi.
    destruct k; simpl in Hi; try discriminate Hi.
    simpl. step_body. reflexivity.
  - intros Hi. unfold isinstance in Hi.
    destruct k; simpl in Hi; try discriminate Hi.
    split; [reflexivity|]. simpl. step_body. reflexivity.
  - intros perms Hk. simpl in Hk. subst k.
    eexists. split.
    + simpl. step_body. rewrite <- app_assoc. reflexivity.
    + find_substring.
Qed.

Lemma X2_answered_check_failures_witness :
  on_command_error Sample.bot Sample.constants 1
                   (mkCommandError KInChannelCheckFailure false
                                   "Sorry, but you may only use this command within #bot-commands.")
                   (mkState (Sample.ctx "eval") [])
  = Some (Returned tt,
          mkState (Sample.ctx "eval")
                  [Send "Sorry, but you may only use this command within #bot-commands."]).
Proof.
  apply (proj1 (proj2 (X2_answered_check_failures Sample.bot Sample.constants 0
                         (Sample.ctx "eval") []
                         (mkCommandError KInChannelCheckFailure false
                            "Sorry, but you may only use this command within #bot-commands.")
                         eq_refl))).
  reflexivity.
Defined.

(** X3: the user's own missing permissions, a plain check failure, a
    cooldown and a disabled command are kept from the channel: the handler
    sends nothing, invokes nothing and writes exactly one debug record,
    which names the invoking user. *)
Theorem X3_silent_errors :
  forall bot constants depth ctx evs e,
    handled e = false ->
    isinstance_any e [MissingPermissions; CheckFailure; CommandOnCooldown; DisabledCommand] = true ->
    isinstance_any e [NoPrivateMessage; BotMissingPermissions; InChannelCheckFailure] = false ->
    exists record,
      on_command_error bot constants (S depth) e (mkState ctx evs)
      = Some (Returned tt, mkState ctx (evs ++ [Log DEBUG record]))
      /\ PyStr.contains (message_author ctx) record
      /\ messages [Log DEBUG record] = [].
Proof.
  intros bot constants depth ctx evs [k h t] Hh Hi Hn. simpl in Hh. subst h.
  unfold isinstance_any, isinstance in Hi, Hn.
  destruct k; simpl in Hi, Hn; try discriminate Hi; try discriminate Hn;
    (eexists; split; [simpl; step_body; reflexivity
                     | split; [find_substring | reflexivity]]).
Qed.

Lemma X3_silent_errors_witness :
  exists record,
    on_command_error Sample.bot Sample.constants 1
                     (mkCommandError KCommandOnCooldown false
                                     "You are on cooldown. Try again in 3.00s")
                     (mkState (Sample.ctx "eval") [])
    = Some (Returned tt, mkState (Sample.ctx "eval") ([] ++ [Log DEBUG record]))
    /\ PyStr.contains "lemon#0001" record
    /\ messages [Log DEBUG record] = [].
Proof.
  apply (X3_silent_errors Sample.bot Sample.constants 0 (Sample.ctx "eval") []
           (mkCommandError KCommandOnCooldown false
                           "You are on cooldown. Try again in 3.00s"));
    reflexivity.
Defined.

(** ** Wrapped errors (lines 154-171) *)

(** X4: when a [CommandInvokeError] wraps anything but an API-response
    error, the responder is given the wrapped error, not the wrapper: the
    message shows the class name and text of the wrapped error, and it is
    the wrapped error that the handler raises. *)
Theorem X4_wrapped_error_is_unwrapped :
  forall bot constants depth ctx evs e cls msg,
    handled e = false ->
    kind e = KCommandInvokeError (OtherException cls msg) ->
    on_command_error bot constants (S depth) e (mkState ctx evs)
    = handle_unexpected_error (RaisedOther cls msg) (mkState ctx evs)
    /\ exists sent record,
         on_command_error bot constants (S depth) e (mkState ctx evs)
         = Some (Raised (RaisedOther cls msg),
                 mkState ctx (evs ++ [Send sent; Log ERROR record]))
         /\ PyStr.contains cls sent
         /\ PyStr.contains msg sent.
Proof.
  intros bot constants depth ctx evs [k h t] cls msg Hh Hk.
  simpl in Hh, Hk. subst h k.
  assert (Hrun : on_command_error bot constants (S depth)
                   (mkCommandError (KCommandInvokeError (OtherException cls msg)) false t)
                   (mkState ctx evs)
                 = handle_unexpected_error (RaisedOther cls msg) (mkState ctx evs))
    by reflexivity.
  split; [exact Hrun|].
  rewrite Hrun, handle_unexpected_error_run.
  eexists. eexists. split; [reflexivity|].
  unfold unexpected_message. simpl. split; find_substring.
Qed.

Lemma X4_wrapped_error_is_unwrapped_witness :
  on_command_error Sample.bot Sample.constants 1
    (mkCommandError (KCommandInvokeError (OtherException "KeyError" "'guild'"))
                    false "Command raised an exception: KeyError: 'guild'")
    (mkState (Sample.ctx "eval") [])
  = handle_unexpected_error (RaisedOther "KeyError" "'guild'")
                            (mkState (Sample.ctx "eval") []).
Proof.
  apply (X4_wrapped_error_is_unwrapped Sample.bot Sample.constants 0
           (Sample.ctx "eval") []
           (mkCommandError (KCommandInvokeError (OtherException "KeyError" "'guild'"))
                           false "Command raised an exception: KeyError: 'guild'")
           "KeyError" "'guild'" eq_refl eq_refl).
Defined.

(** ** The steps of the fallback (lines 76-97) *)

(** X5: on the verification channel a [CommandNotFound] is dropped before
    anything is looked up: whatever the bot holds, the handler returns
    with the context unmarked and without a single effect. *)
Theorem X5_verification_channel_is_left_alone :
  forall bot constants depth ctx evs e,
    handled e = false ->
    isinstance e CommandNotFound = true ->
    invoked_from_error_handler ctx = false ->
    channel_id ctx = Channels_verification constants ->
    on_command_error bot constants (S depth) e (mkState ctx evs)
    = Some (Returned tt, mkState ctx evs).
Proof.
  intros bot constants depth ctx evs e Hh Hi Hm Hv. simpl.
  unfold on_command_error_body, bind, get_ctx. cbv beta iota.
  cbn [ctx_obj]. rewrite Hh, Hi, Hm, Hv, Z.eqb_refl. reflexivity.
Qed.

Lemma X5_verification_channel_is_left_alone_witness :
  on_command_error Sample.bot_tags_forbidden Sample.constants 1 Sample.not_found
                   (mkState Sample.verification_ctx [])
  = Some (Returned tt, mkState Sample.verification_ctx []).
Proof.
  apply (X5_verification_channel_is_left_alone Sample.bot_tags_forbidden
           Sample.constants 0 Sample.verification_ctx [] Sample.not_found);
    reflexivity.
Defined.

(** X6: when the check of [tags get] answers [False], the fallback is
    given up: the context is marked, one debug record is written, and the
    handler returns without asking the cog for a tag and without looking
    for a similar command. *)
Theorem X6_failed_tag_check_stops :
  forall bot constants depth ctx evs e tg,
    handled e = false ->
    isinstance e CommandNotFound = true ->
    invoked_from_error_handler ctx = false ->
    channel_id ctx <> Channels_verification constants ->
    get_command bot "tags get" = Some tg ->
    can_run bot tg (mark ctx) = CheckReturns false ->
    on_command_error bot constants (S depth) e (mkState ctx evs)
    = Some (Returned tt,
            mkState (mark ctx)
                    (evs ++ [Log DEBUG "Cancelling attempt to fall back to a tag due to failed checks."])).
Proof.
  intros bot constants depth ctx evs e tg Hh Hi Hm Hv Htg Hrun.
  apply Z.eqb_neq in Hv. simpl. step_fallback. simpl.
  rewrite Hh, Hi, Hm, Hv, Htg. simpl.
  rewrite andb_false_r. simpl. rewrite Hrun. reflexivity.
Qed.

Lemma X6_failed_tag_check_stops_witness :
  on_command_error
    (mkBot (Some Sample.tags_cog) Sample.lookup [Sample.help_cmd]
           (fun _ _ => CheckReturns false))
    Sample.constants 1 Sample.not_found (mkState (Sample.ctx "hlep") [])
  = Some (Returned tt,
          mkState (mark (Sample.ctx "hlep"))
                  [Log DEBUG "Cancelling attempt to fall back to a tag due to failed checks."]).
Proof.
  apply (X6_failed_tag_check_stops
           (mkBot (Some Sample.tags_cog) Sample.lookup [Sample.help_cmd]
                  (fun _ _ => CheckReturns false))
           Sample.constants 0 (Sample.ctx "hlep") [] Sample.not_found
           Sample.tags_get_cmd);
    try reflexivity.
  vm_compute. discriminate.
Defined.

(** X7: when the check of [tags get] raises a command error, the handler
    writes one debug record and then does, on the marked context, exactly
    what it does when that error is dispatched to it directly: same
    effects, same outcome. *)
Theorem X7_raised_tag_check_is_redispatched :
  forall bot constants depth ctx evs e tg tag_error,
    handled e = false ->
    isinstance e CommandNotFound = true ->
    invoked_from_error_handler ctx = false ->
    channel_id ctx <> Channels_verification constants ->
    get_command bot "tags get" = Some tg ->
    can_run bot tg (mark ctx) = CheckRaises tag_error ->
    on_command_error bot constants (S (S depth)) e (mkState ctx evs)
    = on_command_error bot constants (S depth) tag_error
        (mkState (mark ctx)
                 (evs ++ [Log DEBUG "Cancelling attempt to fall back to a tag due to failed checks."])).
Proof.
  intros bot constants depth ctx evs e tg tag_error Hh Hi Hm Hv Htg Hrun.
  apply Z.eqb_neq in Hv.
  change (on_command_error bot constants (S (S depth)) e)
    with (on_command_error_body bot constants
            (on_command_error bot constants (S depth)) e).
  step_fallback. cbn [ctx_obj events].
  rewrite Hh, Hi, Hm, Hv, Htg. cbn [negb andb is_None].
  rewrite andb_false_r. cbv beta iota. cbn [ctx_obj events]. rewrite Hrun.
  cbv beta iota.
  destruct (on_command_error bot constants (S depth) tag_error _)
    as [[[[] | x] s'] | ]; reflexivity.
Qed.

Lemma X7_raised_tag_check_is_redispatched_witness :
  on_command_error Sample.bot_tags_forbidden Sample.constants 2 Sample.not_found
                   (mkState (Sample.ctx "hlep") [])
  = on_command_error Sample.bot_tags_forbidden Sample.constants 1 Sample.missing_role
      (mkState (mark (Sample.ctx "hlep"))
               ([] ++ [Log DEBUG "Cancelling attempt to fall back to a tag due to failed checks."])).
Proof.
  apply (X7_raised_tag_check_is_redispatched Sample.bot_tags_forbidden
           Sample.constants 0 (Sample.ctx "hlep") [] Sample.not_found
           Sample.tags_get_cmd Sample.missing_role);
    try reflexivity.
  vm_compute. discriminate.
Defined.

(** X8: when the cog reports that it displayed a tag, the handler is done:
    it sends nothing itself, writes no record and does not look for a
    similar command, whatever the registry holds. *)
Theorem X8_displayed_tag_ends_the_fallback :
  forall bot constants depth ctx evs e cog tg,
    handled e = false ->
    isinstance e CommandNotFound = true ->
    invoked_from_error_handler ctx = false ->
    channel_id ctx <> Channels_verification constants ->
    get_cog_Tags bot = Some cog ->
    get_command bot "tags get" = Some tg ->
    can_run bot tg (mark ctx) = CheckReturns true ->
    display_tag cog (mark ctx) (invoked_with ctx) = true ->
    on_command_error bot constants (S depth) e (mkState ctx evs)
    = Some (Returned tt,
            mkState (mark ctx) (evs ++ [DisplayTag (invoked_with ctx)])).
Proof.
  intros bot constants depth ctx evs e cog tg Hh Hi Hm Hv Hcog Htg Hrun Hsent.
  apply Z.eqb_neq in Hv. simpl. step_fallback. simpl.
  rewrite Hh, Hi, Hm, Hv, Hcog, Htg. simpl. rewrite Hrun. simpl.
  rewrite Hsent. reflexivity.
Qed.

Lemma X8_displayed_tag_ends_the_fallback_witness :
  on_command_error
    (mkBot (Some (mkTagsCog (fun _ n => String.eqb n "pep8"))) Sample.lookup
           [Sample.help_cmd] (fun _ _ => CheckReturns true))
    Sample.constants 1 Sample.not_found (mkState (Sample.ctx "pep8") [])
  = Some (Returned tt,
          mkState (mark (Sample.ctx "pep8")) [DisplayTag "pep8"]).
Proof.
  apply (X8_displayed_tag_ends_the_fallback
           (mkBot (Some (mkTagsCog (fun _ n => String.eqb n "pep8"))) Sample.lookup
                  [Sample.help_cmd] (fun _ _ => CheckReturns true))
           Sample.constants 0 (Sample.ctx "pep8") [] Sample.not_found
           (mkTagsCog (fun _ n => String.eqb n "pep8")) Sample.tags_get_cmd);
    try reflexivity.
  vm_compute. discriminate.
Defined.

(** ** The text of the suggestion (lines 119-123) *)

Lemma prefix_split (old s : string) :
  String.prefix old s = true -> s = old ++ PyStr.drop (String.length old) s.
Proof.
  revert s. induction old as [|c old IH]; intros s H.
  - reflexivity.
  - destruct s as [|d s]; simpl in H; [discriminate H|].
    destruct (ascii_dec c d) as [<- | _]; [|discriminate H].
    simpl. f_equal. now apply IH.
Qed.

Lemma prefix_append (old post : string) : String.prefix old (old ++ post) = true.
Proof.
  induction old as [|c old IH]; simpl.
  - destruct post; reflexivity.
  - destruct (ascii_dec c c) as [_ | Hne]; [exact IH | now elim Hne].
Qed.

(** [replace_first] rewrites the leftmost occurrence and nothing else. *)
Lemma replace_first_spec (old new s : string) :
  (PyStr.replace_first old new s = s /\ ~ PyStr.contains old s)
  \/ exists pre post,
       s = pre ++ old ++ post
       /\ PyStr.replace_first old new s = pre ++ new ++ post
       /\ forall pre' post',
            s = pre' ++ old ++ post' ->
            (String.length pre <= String.length pre')%nat.
Proof.
  induction s as [|c s IH].
  - cbn [PyStr.replace_first]. destruct (String.prefix old EmptyString) eqn:Hp.
    + right. exists EmptyString, (PyStr.drop (String.length old) EmptyString).
      split; [exact (prefix_split _ _ Hp)|].
      split; [reflexivity | intros; simpl; lia].
    + left. split; [reflexivity|].
      intros [pre [post Heq]].
      destruct pre; [|discriminate Heq].
      simpl in Heq. rewrite Heq, prefix_append in Hp. discriminate Hp.
  - cbn [PyStr.replace_first].
    destruct (String.prefix old (String c s)) eqn:Hp.
    + right. exists EmptyString, (PyStr.drop (String.length old) (String c s)).
      split; [exact (prefix_split _ _ Hp)|].
      split; [reflexivity | intros; simpl; lia].
    + destruct IH as [[Hsame Hnone] | [pre [post [Heq [Hrep Hleft]]]]].
      * left. split; [now rewrite Hsame|].
        intros [pre [post Heq]].
        destruct pre as [|d pre].
        -- simpl in Heq. rewrite Heq, prefix_append in Hp. discriminate Hp.
        -- simpl in Heq. inversion Heq; subst.
           apply Hnone. now exists pre, post.
      * right. exists (String c pre), post.
        split; [simpl; now rewrite Heq|].
        split; [simpl; now rewrite Hrep|].
        intros pre' post' Heq'.
        destruct pre' as [|d pre'].
        -- simpl in Heq'. rewrite Heq', prefix_append in Hp. discriminate Hp.
        -- simpl in Heq'. inversion Heq'; subst d.
           simpl. apply le_n_S. now apply (Hleft pre' post').
Qed.

(** X9: the text the handler suggests is the original message with the
    leftmost occurrence of the mistyped name replaced by the matched name
    and everything else kept; a message that does not hold the mistyped
    name is echoed unchanged. *)
Theorem X9_suggestion_replaces_leftmost_occurrence :
  forall constants ctx x,
    let typed := invoked_with ctx in
    let content := message_content ctx in
    (description (suggestion constants ctx x) = content
     /\ ~ PyStr.contains typed content)
    \/ exists pre post,
         content = pre ++ typed ++ post
         /\ description (suggestion constants ctx x) = pre ++ x ++ post
         /\ forall pre' post',
              content = pre' ++ typed ++ post' ->
              (String.length pre <= String.length pre')%nat.
Proof.
  intros constants ctx x typed content.
  unfold suggestion. cbn [description]. fold typed. fold content.
  destruct (replace_first_spec typed x content)
    as [[Hsame Hnone] | [pre [post [Heq [Hrep Hleft]]]]].
  - left. split; [exact Hsame | exact Hnone].
  - right. exists pre, post. split; [exact Heq|]. split; [exact Hrep|].
    exact Hleft.
Qed.

(** ** What every run has in common *)

Ltac leaf_events :=
  first [ rewrite <- ?app_assoc; reflexivity | symmetry; apply app_nil_r ].

Ltac leaf_no_embed :=
  let Hin := fresh "Hin" in
  intros ? ? Hin; simpl in Hin;
  repeat (destruct Hin as [Hin | Hin]; [discriminate Hin|]);
  destruct Hin.

Ltac leaf_raise :=
  let Hx := fresh "Hx" in
  let Hb := fresh "Hb" in
  intros ? Hx Hb; cbn [fst] in Hx;
  first [ discriminate Hx
        | injection Hx as <-; cbn in Hb;
          first [ discriminate Hb | exists []; reflexivity ] ].

Ltac leaf_fallback Hc :=
  let Hent := fresh "Hent" in
  intros Hent; unfold entered_fallback in Hent; cbn [handled] in Hent;
  first [ reflexivity
        | rewrite Hc in Hent; simpl in Hent; discriminate Hent
        | simpl in Hent; discriminate Hent ].

Ltac leaf_marked Hm :=
  unfold well_behaved; cbn [fst snd ctx_obj events]; eexists;
  split; [leaf_events|];
  split; [right; split; [exact Hm | reflexivity]|];
  split; [simpl; lia|];
  split; [leaf_no_embed|];
  split; [leaf_raise | intros _; reflexivity].

Lemma terminal_well_behaved bot constants self e st r :
  handled e = true
  \/ isinstance e CommandNotFound
     && negb (invoked_from_error_handler (ctx_obj st)) = false ->
  on_command_error_body bot constants self e st = Some r ->
  well_behaved bot constants e st r.
Proof.
  intros Hcase Hrun. destruct st as [ctx evs]. destruct e as [k h t].
  destruct h.
  - rewrite handled_run in Hrun by reflexivity. injection Hrun as <-.
    unfold well_behaved. cbn [fst snd ctx_obj events]. eexists.
    split; [leaf_events|]. split; [left; reflexivity|].
    split; [simpl; lia|]. split; [leaf_no_embed|]. split; [leaf_raise|].
    intros Hent. discriminate Hent.
  - destruct Hcase as [Hcase | Hc]; [discriminate Hcase|]. cbn [ctx_obj] in Hc.
    assert (Hnf : entered_fallback bot constants ctx
                    (mkCommandError k false t) = false).
    { unfold entered_fallback. cbn [handled negb andb].
      destruct (isinstance _ CommandNotFound); [|reflexivity].
      cbn [andb] in *. rewrite Hc. reflexivity. }
    destruct k as [ | | | | perms | perms | | | | | [status content | cls msg] | cls];
      revert Hrun; step_body;
      try (unfold isinstance in Hc; simpl in Hc; rewrite Hc);
      try (destruct (status =? 404); [|destruct (status =? 400);
             [|destruct ((500 <=? status) && (status <? 600))]]);
      intros Hrun; injection Hrun as <-;
      unfold well_behaved; cbn [fst snd ctx_obj events]; eexists;
      (split; [leaf_events|]); (split; [left; reflexivity|]);
      (split; [simpl; lia|]); (split; [leaf_no_embed|]);
      (split; [leaf_raise|]);
      (intros Hent; rewrite Hnf in Hent; discriminate Hent).
Qed.

Lemma fallback_well_behaved bot constants self e st r :
  (forall e' st' r', self e' st' = Some r' -> well_behaved bot constants e' st' r') ->
  handled e = false ->
  isinstance e CommandNotFound
  && negb (invoked_from_error_handler (ctx_obj st)) = true ->
  on_command_error_body bot constants self e st = Some r ->
  well_behaved bot constants e st r.
Proof.
  intros Hself Hh Hc Hrun. destruct st as [ctx evs]. cbn [ctx_obj] in Hc.
  pose proof Hc as Hc'. apply andb_prop in Hc'. destruct Hc' as [Hi Hm].
  apply negb_true_iff in Hm.
  revert Hrun. step_fallback. cbn [ctx_obj events]. rewrite Hh, Hc.
  destruct (negb (channel_id ctx =? Channels_verification constants)) eqn:Hv.
  2:{ intros Hrun; injection Hrun as <-.
      unfold well_behaved; cbn [fst snd ctx_obj events]. exists [].
      split; [leaf_events|]. split; [left; reflexivity|].
      split; [simpl; lia|]. split; [leaf_no_embed|]. split; [leaf_raise|].
      intros Hent. unfold entered_fallback in Hent. rewrite Hv in Hent.
      rewrite andb_false_r in Hent. discriminate Hent. }
  destruct (is_None (get_cog_Tags bot) && is_None (get_command bot "tags get"))
    eqn:Hg.
  { intros Hrun; injection Hrun as <-.
    unfold well_behaved; cbn [fst snd ctx_obj events]. exists [].
    split; [leaf_events|]. split; [left; reflexivity|].
    split; [simpl; lia|]. split; [leaf_no_embed|]. split; [leaf_raise|].
    intros Hent. unfold entered_fallback in Hent. rewrite Hg in Hent.
    rewrite andb_false_r in Hent. discriminate Hent. }
  cbv beta iota. cbn [ctx_obj events].
  destruct (get_command bot "tags get") as [tg|] eqn:Htg;
    cbv beta iota; cbn [ctx_obj events].
  - destruct (can_run bot tg (mark ctx)) as [[|]|err] eqn:Hcr;
      cbv beta iota; cbn [negb ctx_obj events].
    + destruct (get_cog_Tags bot) as [cog|];
        cbv beta iota; cbn [ctx_obj events].
      * destruct (display_tag cog (mark ctx) (invoked_with ctx)).
        -- intros Hrun; injection Hrun as <-. leaf_marked Hm.
        -- destruct (get_close_matches_spec (invoked_with ctx)
                       (collect_raw_commands (walk_commands bot) []))
             as [[Hgc _] | [x [Hgc [Hin [Hgood _]]]]]; rewrite Hgc;
             cbv beta iota; cbn [ctx_obj events].
           ++ intros Hrun; injection Hrun as <-. leaf_marked Hm.
           ++ destruct (get_command bot x);
                cbv beta iota; cbn [ctx_obj events coroutine_truth negb];
                intros Hrun; injection Hrun as <-; [|leaf_marked Hm].
              unfold well_behaved; cbn [fst snd ctx_obj events]. eexists.
              split; [leaf_events|].
              split; [right; split; [exact Hm | reflexivity]|].
              split; [simpl; lia|].
              split; [|split; [leaf_raise | intros _; reflexivity]].
              intros emb d Hemb. simpl in Hemb.
              destruct Hemb as [Hemb | [Hemb | []]]; [discriminate Hemb|].
              injection Hemb as <- <-. split; [reflexivity|].
              exists x. split; [reflexivity|]. split; assumption.
      * intros Hrun; injection Hrun as <-. leaf_marked Hm.
    + intros Hrun; injection Hrun as <-. leaf_marked Hm.
    + destruct (self err _) as [[[[] | x] s1] | ] eqn:Hs;
        cbv beta iota; intros Hrun; try discriminate Hrun;
        injection Hrun as <-;
        apply Hself in Hs;
        destruct Hs as [new1 [Hev [Hctx [Hmsg [Hemb [Hraise _]]]]]];
        cbn [fst snd ctx_obj events] in *;
        (destruct Hctx as [Hctx | [Habs _]]; [|discriminate Habs]);
        unfold well_behaved; cbn [fst snd ctx_obj events];
        exists (Log DEBUG "Cancelling attempt to fall back to a tag due to failed checks."
                    :: new1);
        (split; [rewrite Hev, <- app_assoc; reflexivity|]);
        (split; [right; split; [exact Hm | exact Hctx]|]);
        (split; [exact Hmsg|]);
        (split; [intros emb d [Hin | Hin]; [discriminate Hin | exact (Hemb emb d Hin)]|]);
        (split; [|intros _; exact Hctx]).
      * intros y Hy _. discriminate Hy.
      * intros y Hy Hb. destruct (Hraise y Hy Hb) as [pre Hpre].
        exists (Log DEBUG "Cancelling attempt to fall back to a tag due to failed checks."
                    :: pre).
        rewrite Hpre. reflexivity.
  - intros Hrun; injection Hrun as <-. leaf_marked Hm.
Qed.

(** Every finished run is well behaved, at any depth. *)
Lemma run_well_behaved bot constants depth :
  forall e st r,
    on_command_error bot constants depth e st = Some r ->
    well_behaved bot constants e st r.
Proof.
  induction depth as [|depth IH]; intros e st r Hrun; [discriminate Hrun|].
  simpl in Hrun.
  destruct (handled e) eqn:Hh.
  - apply (terminal_well_behaved _ _ _ _ _ _ (or_introl Hh) Hrun).
  - destruct (isinstance e CommandNotFound
              && negb (invoked_from_error_handler (ctx_obj st))) eqn:Hc.
    + apply (fallback_well_behaved _ _ _ _ _ _ IH Hh Hc Hrun).
    + apply (terminal_well_behaved _ _ _ _ _ _ (or_intror Hc) Hrun).
Qed.

(** X10: the handler touches nothing on the context but the marker.  The
    context a run leaves behind is the one it was given, possibly with the
    marker set; a marker that was there stays; and a run that went into
    the fallback past its guard always leaves the marker set, however the
    run ends. *)
Theorem X10_context_only_gains_the_marker :
  forall bot constants depth ctx evs e o st',
    on_command_error bot constants depth e (mkState ctx evs) = Some (o, st') ->
    (ctx_obj st' = ctx \/ ctx_obj st' = mark ctx)
    /\ (invoked_from_error_handler ctx = true -> ctx_obj st' = ctx)
    /\ (entered_fallback bot constants ctx e = true -> ctx_obj st' = mark ctx).
Proof.
  intros bot constants depth ctx evs e o st' Hrun.
  destruct (run_well_behaved _ _ _ _ _ _ Hrun)
    as [new [_ [Hctx [_ [_ [_ Hent]]]]]].
  cbn [fst snd ctx_obj events] in *.
  split; [|split].
  - destruct Hctx as [Hctx | [_ Hctx]]; [now left | now right].
  - intros Hm. destruct Hctx as [Hctx | [Habs _]]; [exact Hctx | congruence].
  - exact Hent.
Qed.

Lemma X10_context_only_gains_the_marker_witness :
  (ctx_obj (mkState (mark (Sample.ctx "xyzzy")) [DisplayTag "xyzzy"]) = Sample.ctx "xyzzy"
   \/ ctx_obj (mkState (mark (Sample.ctx "xyzzy")) [DisplayTag "xyzzy"])
      = mark (Sample.ctx "xyzzy"))
  /\ (invoked_from_error_handler (Sample.ctx "xyzzy") = true ->
      ctx_obj (mkState (mark (Sample.ctx "xyzzy")) [DisplayTag "xyzzy"])
      = Sample.ctx "xyzzy")
  /\ (entered_fallback Sample.bot Sample.constants (Sample.ctx "xyzzy")
                       Sample.not_found = true ->
      ctx_obj (mkState (mark (Sample.ctx "xyzzy")) [DisplayTag "xyzzy"])
      = mark (Sample.ctx "xyzzy")).
Proof.
  apply (X10_context_only_gains_the_marker Sample.bot Sample.constants 2
           (Sample.ctx "xyzzy") [] Sample.not_found
           (Raised (IndexError "list index out of range"))).
  vm_compute. reflexivity.
Defined.

(** X11: one dispatch sends at most one message.  A finished run has only
    added to the effects it started from, and among what it added there is
    at most one [ctx.send], the re-dispatch of a failed tag check
    included. *)
Theorem X11_at_most_one_message :
  forall bot constants depth ctx evs e o st',
    on_command_error bot constants depth e (mkState ctx evs) = Some (o, st') ->
    exists new,
      events st' = (evs ++ new)%list
      /\ (List.length (messages new) <= 1)%nat.
Proof.
  intros bot constants depth ctx evs e o st' Hrun.
  destruct (run_well_behaved _ _ _ _ _ _ Hrun) as [new [Hev [_ [Hmsg _]]]].
  exists new. split; [exact Hev | exact Hmsg].
Qed.

Lemma X11_at_most_one_message_witness :
  exists new,
    events (mkState (mark (Sample.ctx "hlep"))
                    [DisplayTag "hlep";
                     SendEmbed (mkEmbed "Did you mean:" "icon.png" "!help please") 7%Q])
    = ([] ++ new)%list
    /\ (List.length (messages new) <= 1)%nat.
Proof.
  apply (X11_at_most_one_message Sample.bot_help_raises Sample.constants 2
           (Sample.ctx "hlep") [] Sample.not_found (Returned tt)).
  vm_compute. reflexivity.
Defined.

(** X12: whatever the handler is given, an embed it sends is the "Did you
    mean" suggestion for this context, it is set to delete itself after 7
    seconds, and the name it proposes was collected from the registry: it
    is the name or an alias of at least one command that is not hidden.
    (Which command the registry then resolves under that name is another
    matter, and nothing is said of it here.) *)
Theorem X12_suggested_name_comes_from_a_visible_command :
  forall bot constants depth ctx e o st' emb d,
    on_command_error bot constants depth e (mkState ctx []) = Some (o, st') ->
    In (SendEmbed emb d) (events st') ->
    d = 7%Q
    /\ exists x cmd,
         emb = suggestion constants ctx x
         /\ In cmd (walk_commands bot)
         /\ hidden cmd = false
         /\ (x = name cmd \/ In x (aliases cmd)).
Proof.
  intros bot constants depth ctx e o st' emb d Hrun Hin.
  destruct (run_well_behaved _ _ _ _ _ _ Hrun) as [new [Hev [_ [_ [Hemb _]]]]].
  cbn [fst snd ctx_obj events] in *. rewrite Hev in Hin. simpl in Hin.
  destruct (Hemb emb d Hin) as [Hd [x [Hx [Hcand _]]]].
  split; [exact Hd|].
  apply collect_raw_commands_In in Hcand.
  destruct Hcand as [[] | [cmd [Hcmd [Hhid Hname]]]].
  exists x, cmd. repeat split; assumption.
Qed.

Lemma X12_suggested_name_comes_from_a_visible_command_witness :
  7%Q = 7%Q
  /\ exists x cmd,
       mkEmbed "Did you mean:" "icon.png" "!help please"
       = suggestion Sample.constants (Sample.ctx "hlep") x
       /\ In cmd (walk_commands Sample.bot)
       /\ hidden cmd = false
       /\ (x = name cmd \/ In x (aliases cmd)).
Proof.
  apply (X12_suggested_name_comes_from_a_visible_command Sample.bot Sample.constants 2
           (Sample.ctx "hlep") Sample.not_found (Returned tt)
           (mkState (mark (Sample.ctx "hlep"))
                    [DisplayTag "hlep";
                     SendEmbed (mkEmbed "Did you mean:" "icon.png" "!help please") 7%Q])).
  - vm_compute. reflexivity.
  - right. left. reflexivity.
Defined.

(** The name may still resolve to a hidden command: with a hidden
    top-level [get] beside the visible subcommand [tags get], whose short
    name is also [get], the typed name [gte] is answered with [get], and
    the command the registry resolves under that name is the hidden one. *)
Lemma suggested_name_may_resolve_to_a_hidden_command :
  let hidden_get := mkCommand "get" "get" [] true None in
  let bot := mkBot (Some Sample.tags_cog)
                   (fun n => if String.eqb n "get" then Some hidden_get
                             else Sample.lookup n)
                   [hidden_get; Sample.tags_cmd; Sample.tags_get_cmd]
                   (fun _ _ => CheckReturns true) in
  on_command_error bot Sample.constants 2 Sample.not_found
                   (mkState (Sample.ctx "gte") [])
  = Some (Returned tt,
          mkState (mark (Sample.ctx "gte"))
                  [DisplayTag "gte";
                   SendEmbed (mkEmbed "Did you mean:" "icon.png" "!get please") 7%Q])
  /\ get_command bot "get" = Some hidden_get
  /\ hidden hidden_get = true.
Proof.
  repeat split; vm_compute; reflexivity.
Qed.

Lemma length_seq_of (s : string) :
  List.length (difflib.seq_of s) = String.length s.
Proof.
  unfold difflib.seq_of. induction s as [|c s IH]; simpl; [reflexivity|].
  now rewrite IH.
Qed.

(** A candidate that passes the cutoff has a length close to the word's:
    the first of the three tests looks at the two lengths only. *)
Lemma good_enough_lengths (word x : string) :
  difflib.good_enough difflib.default_cutoff word x = true ->
  (3 * (String.length x + String.length word)
   <= 10 * Nat.min (String.length x) (String.length word))%nat.
Proof.
  unfold difflib.good_enough. intros H.
  apply andb_prop in H. destruct H as [H _].
  apply andb_prop in H. destruct H as [H _].
  apply Qle_bool_iff in H.
  unfold difflib.real_quick_ratio, difflib._calculate_ratio in H.
  rewrite !length_seq_of in H.
  set (la := String.length x) in *. set (lb := String.length word) in *.
  destruct (Nat.eqb_spec (la + lb) 0) as [Hz | Hnz]; [lia|].
  unfold Qle, difflib.default_cutoff in H. cbn [Qnum Qden] in H.
  assert (Hpos : Zpos (Pos.of_nat (la + lb)) = Z.of_nat (la + lb)).
  { rewrite <- positive_nat_Z. now rewrite Nat2Pos.id. }
  rewrite Hpos in H. lia.
Qed.

(** X13: the handler never suggests a name whose length is far from that
    of the name that was typed: for a suggested name of length [n] and a
    typed name of length [m], three times [n + m] is at most ten times the
    smaller of the two, so that neither is more than 7/3 of the other. *)
Theorem X13_suggested_name_has_similar_length :
  forall bot constants depth ctx e o st' emb d,
    on_command_error bot constants depth e (mkState ctx []) = Some (o, st') ->
    In (SendEmbed emb d) (events st') ->
    exists x,
      emb = suggestion constants ctx x
      /\ (3 * (String.length x + String.length (invoked_with ctx))
          <= 10 * Nat.min (String.length x) (String.length (invoked_with ctx)))%nat.
Proof.
  intros bot constants depth ctx e o st' emb d Hrun Hin.
  destruct (run_well_behaved _ _ _ _ _ _ Hrun) as [new [Hev [_ [_ [Hemb _]]]]].
  cbn [fst snd ctx_obj events] in *. rewrite Hev in Hin. simpl in Hin.
  destruct (Hemb emb d Hin) as [_ [x [Hx [_ Hgood]]]].
  exists x. split; [exact Hx|]. now apply good_enough_lengths.
Qed.

Lemma X13_suggested_name_has_similar_length_witness :
  exists x,
    mkEmbed "Did you mean:" "icon.png" "!help please"
    = suggestion Sample.constants (Sample.ctx "hlep") x
    /\ (3 * (String.length x + String.length (invoked_with (Sample.ctx "hlep")))
        <= 10 * Nat.min (String.length x)
                        (String.length (invoked_with (Sample.ctx "hlep"))))%nat.
Proof.
  apply (X13_suggested_name_has_similar_length Sample.bot Sample.constants 2
           (Sample.ctx "hlep") Sample.not_found (Returned tt)
           (mkState (mark (Sample.ctx "hlep"))
                    [DisplayTag "hlep";
                     SendEmbed (mkEmbed "Did you mean:" "icon.png" "!help please") 7%Q])
           (mkEmbed "Did you mean:" "icon.png" "!help please") 7%Q).
  - vm_compute. reflexivity.
  - right. left. reflexivity.
Defined.

(** X14: a command error, or an error found inside a
    [CommandInvokeError], leaves the handler only through the responder:
    when a run ends by raising anything but an [AttributeError] or an
    [IndexError] of the fallback, the last two things it did were to send
    the "unexpected error" message for that very error and to write the
    error-level record. *)
Theorem X14_errors_leave_through_the_responder :
  forall bot constants depth ctx e x st',
    on_command_error bot constants depth e (mkState ctx []) = Some (Raised x, st') ->
    is_builtin x = false ->
    exists before,
      events st' = (before ++ [Send (unexpected_message x);
                               Log ERROR (unexpected_record ctx)])%list.
Proof.
  intros bot constants depth ctx e x st' Hrun Hb.
  destruct (run_well_behaved _ _ _ _ _ _ Hrun) as [new [Hev [_ [_ [_ [Hraise _]]]]]].
  cbn [fst snd ctx_obj events] in *.
  destruct (Hraise x eq_refl Hb) as [pre Hpre].
  exists pre. rewrite Hev, Hpre. reflexivity.
Qed.

Lemma X14_errors_leave_through_the_responder_witness :
  exists before,
    events (mkState (mark (Sample.ctx "hlep"))
              [Log DEBUG "Cancelling attempt to fall back to a tag due to failed checks.";
               Send (unexpected_message (RaisedCommandError Sample.brand_new));
               Log ERROR (unexpected_record (Sample.ctx "hlep"))])
    = (before ++ [Send (unexpected_message (RaisedCommandError Sample.brand_new));
                  Log ERROR (unexpected_record (Sample.ctx "hlep"))])%list.
Proof.
  apply (X14_errors_leave_through_the_responder
           (mkBot (Some Sample.tags_cog) Sample.lookup [Sample.help_cmd]
                  (fun _ _ => CheckRaises Sample.brand_new))
           Sample.constants 2 (Sample.ctx "hlep") Sample.not_found
           (RaisedCommandError Sample.brand_new)).
  - vm_compute. reflexivity.
  - reflexivity.
Defined.

(** X15: the fallback is tried once per context.  After a run that went
    into the fallback past its guard, however it ended, any further
    unhandled [CommandNotFound] dispatched on the context it left goes
    straight to the responder. *)
Theorem X15_fallback_runs_once_per_context :
  forall bot constants depth ctx evs e o st' depth' e',
    entered_fallback bot constants ctx e = true ->
    on_command_error bot constants depth e (mkState ctx evs) = Some (o, st') ->
    handled e' = false ->
    isinstance e' CommandNotFound = true ->
    on_command_error bot constants (S depth') e' st'
    = handle_unexpected_error (RaisedCommandError e') st'.
Proof.
  intros bot constants depth ctx evs e o st' depth' e' Hent Hrun Hh Hi.
  destruct (run_well_behaved _ _ _ _ _ _ Hrun) as [new [_ [_ [_ [_ [_ Hmark]]]]]].
  cbn [fst snd ctx_obj events] in *. specialize (Hmark Hent).
  simpl. apply no_case_run. rewrite Hmark.
  pose proof (isinstance_CommandNotFound e' Hi) as Hk.
  unfold no_case_matches, isinstance_any, isinstance.
  rewrite Hh, Hk. reflexivity.
Qed.

Lemma X15_fallback_runs_once_per_context_witness :
  on_command_error Sample.bot Sample.constants 1 Sample.not_found
    (mkState (mark (Sample.ctx "xyzzy")) [DisplayTag "xyzzy"])
  = handle_unexpected_error (RaisedCommandError Sample.not_found)
      (mkState (mark (Sample.ctx "xyzzy")) [DisplayTag "xyzzy"]).
Proof.
  apply (X15_fallback_runs_once_per_context Sample.bot Sample.constants 2
           (Sample.ctx "xyzzy") [] Sample.not_found
           (Raised (IndexError "list index out of range"))
           (mkState (mark (Sample.ctx "xyzzy")) [DisplayTag "xyzzy"])
           0%nat Sample.not_found).
  - vm_compute. reflexivity.
  - vm_compute. reflexivity.
  - reflexivity.
  - reflexivity.
Defined.

(** X16: the closest match is looked up with [bot.get_command] and the
    result is used as it comes.  When the registry does not resolve the
    matched name, as for the short name of a subcommand, the handler fails
    with an [AttributeError] on [None.can_run] after the cog was asked for
    a tag, and sends nothing. *)
Theorem X16_unresolved_match_raises_AttributeError :
  forall bot constants depth ctx e x rest,
    reaches_fuzzy_match bot constants ctx e = true ->
    difflib.get_close_matches
      (invoked_with ctx) (collect_raw_commands (walk_commands bot) []) = x :: rest ->
    get_command bot x = None ->
    on_command_error bot constants (S depth) e (mkState ctx [])
    = Some (Raised (AttributeError "'NoneType' object has no attribute 'can_run'"),
            mkState (mark ctx) [DisplayTag (invoked_with ctx)]).
Proof.
  intros bot constants depth ctx e x rest Hreach Hx Hnone. simpl.
  rewrite (fuzzy_stage_run _ _ _ _ _ _ Hreach), Hx, Hnone. reflexivity.
Qed.

Lemma X16_unresolved_match_raises_AttributeError_witness :
  on_command_error Sample.bot Sample.constants 1 Sample.not_found
                   (mkState (Sample.ctx "gte") [])
  = Some (Raised (AttributeError "'NoneType' object has no attribute 'can_run'"),
          mkState (mark (Sample.ctx "gte")) [DisplayTag "gte"]).
Proof.
  apply (X16_unresolved_match_raises_AttributeError Sample.bot Sample.constants 0
           (Sample.ctx "gte") Sample.not_found "get" []).
  - reflexivity.
  - vm_compute. reflexivity.
  - reflexivity.
Defined.
